(** * OT-Security-Modbus: a shallow embedding of the probing engine

    The development follows the two scripts of the repository,
    [modbus_toolkit.py] and [modbusrecon_toolkit.py].  Python values are
    modelled as follows: [int] as [Z], [str] as [string] (a character is a
    code point below 256), [bytes] as [list byte], a [dict] as an association
    list in insertion order, and the network (the pymodbus client, the raw
    socket and the random generator) as an explicit world that every call
    threads through, together with a log of the calls issued. *)

From Stdlib Require Import ZArith NArith List String Ascii Bool Lia Sorted.
From Stdlib Require Import Permutation.
From Stdlib.Strings Require Import Byte.
From Stdlib Require Import DecimalString DecimalZ DecimalPos.
Import ListNotations.

Local Open Scope string_scope.
Local Open Scope Z_scope.

(** ** Python primitives *)

Module Py.

(** Exceptions that escape a function of the scripts. *)
Inductive PyError : Type :=
| ValueError
| IndexError.

(** The completion of a call: a returned value or a propagating exception. *)
Inductive Completion (A : Type) : Type :=
| Returns (a : A)
| Throws (e : PyError).
Arguments Returns {A} a.
Arguments Throws {A} e.

(** [len(range(start, stop, step))] for a non-zero step, as CPython
    computes it. *)
Definition range_length (start stop step : Z) : Z :=
  let '(lo, hi, st) :=
    if 0 <? step then (start, stop, step) else (stop, start, - step) in
  if hi <=? lo then 0 else (hi - lo - 1) / st + 1.

(** [range(start, stop, step)]: a zero step raises [ValueError]. *)
Definition range (start stop step : Z) : Completion (list Z) :=
  if step =? 0 then Throws ValueError
  else Returns (map (fun i => start + Z.of_nat i * step)
                    (seq 0 (Z.to_nat (range_length start stop step)))).

(** [range(n)], which never raises. *)
Definition range1 (n : Z) : list Z :=
  map Z.of_nat (seq 0 (Z.to_nat n)).

(** [str.lower()] on one character (code points below 256). *)
Definition lower_char (c : ascii) : ascii :=
  let n := N_of_ascii c in
  if (((65 <=? n) && (n <=? 90)) ||
      ((192 <=? n) && (n <=? 222) && negb (n =? 215)))%N
  then ascii_of_N (n + 32) else c.

Fixpoint lower (s : string) : string :=
  match s with
  | EmptyString => EmptyString
  | String c r => String (lower_char c) (lower r)
  end.

(** [needle in hay] on strings. *)
Fixpoint contains (needle hay : string) : bool :=
  String.prefix needle hay ||
  match hay with
  | EmptyString => false
  | String _ rest => contains needle rest
  end.

(** [str(n)] for an integer. *)
Definition str_of_int (n : Z) : string :=
  NilZero.string_of_int (Z.to_int n).

(** [bytes.hex()]. *)
Definition hex_digit (n : N) : ascii :=
  if (n <? 10)%N then ascii_of_N (48 + n) else ascii_of_N (87 + n).

Fixpoint hex (data : list byte) : string :=
  match data with
  | [] => EmptyString
  | b :: rest =>
      let n := Byte.to_N b in
      String (hex_digit (n / 16)) (String (hex_digit (n mod 16)) (hex rest))
  end.

(** Truthiness of a string: the empty string is false. *)
Definition truthy (s : string) : bool :=
  match s with EmptyString => false | _ => true end.

(** A [dict] with string keys, in insertion order. *)
Definition dict (V : Type) : Type := list (string * V).

(** [d[k] = v]: an existing key keeps its place. *)
Fixpoint setitem {V} (k : string) (v : V) (d : dict V) : dict V :=
  match d with
  | [] => [(k, v)]
  | (k', v') :: rest =>
      if String.eqb k k' then (k, v) :: rest
      else (k', v') :: setitem k v rest
  end.

Fixpoint getitem {V} (k : string) (d : dict V) : option V :=
  match d with
  | [] => None
  | (k', v) :: rest => if String.eqb k k' then Some v else getitem k rest
  end.

Definition keys {V} (d : dict V) : list string := map fst d.

Definition has_key {V} (k : string) (d : dict V) : bool :=
  existsb (String.eqb k) (keys d).

End Py.

(** ** The network as an explicit world *)

(** A pymodbus [ModbusTcpClient(ip, port=port)] object. *)
Record Client : Type := mkClient { client_host : string; client_port : Z }.

(** What a call into pymodbus or the socket library does: it returns, or it
    raises an exception [e] whose [str(e)] is [msg]. *)
Inductive Outcome (A : Type) : Type :=
| Returned (a : A)
| Raised (msg : string).
Arguments Returned {A} a.
Arguments Raised {A} msg.

(** A pymodbus response: [isError()] is true, or it carries its payload
    ([.registers], [.bits], [.information]). *)
Inductive Response (P : Type) : Type :=
| ErrorResponse
| Normal (payload : P).
Arguments ErrorResponse {P}.
Arguments Normal {P} payload.

Definition isError {P} (response : Response P) : bool :=
  match response with ErrorResponse => true | Normal _ => false end.

(** The devices, the transport and the random generator.  Nothing is assumed
    of them: every answer may depend on the whole history. *)
Class Network (World : Type) : Type := {
  net_connect : Client -> World -> bool * World;
  net_read_coils :
    Client -> Z -> Z -> World -> Outcome (Response (list bool)) * World;
  net_read_holding_registers :
    Client -> Z -> Z -> World -> Outcome (Response (list Z)) * World;
  net_read_input_registers :
    Client -> Z -> Z -> World -> Outcome (Response (list Z)) * World;
  net_write_registers :
    Client -> Z -> list Z -> World -> Outcome (Response unit) * World;
  net_read_device_information :
    Client -> World -> Outcome (Response (list (Z * string))) * World;
  net_close : Client -> World -> World;
  sock_create_connection : string -> Z -> World -> Outcome unit * World;
  sock_send : list byte -> World -> Outcome unit * World;
  sock_recv : World -> Outcome (list byte) * World;
  sock_close : World -> Outcome unit * World;
  random_source : World -> Z * World
}.

(** How a request ended, as the log keeps it: a normal response, a response
    whose [isError()] holds, or an exception with its text. *)
Inductive StatusTag : Type :=
| OK
| Error
| Exception (detail : string).

Definition tag_of {P} (o : Outcome (Response P)) : StatusTag :=
  match o with
  | Returned (Normal _) => OK
  | Returned ErrorResponse => Error
  | Raised msg => Exception msg
  end.

Inductive Request : Type :=
| ReadCoils (address count : Z)
| ReadHolding (address count : Z)
| ReadInput (address count : Z)
| WriteRegisters (address : Z) (values : list Z)
| ReadDeviceInformation.

(** The calls a run issues, in order. *)
Inductive Event : Type :=
| EvConnect (client : Client) (connected : bool)
| EvRequest (client : Client) (request : Request) (tag : StatusTag)
| EvClose (client : Client)
| EvSockConnect (host : string) (port timeout : Z) (connected : bool)
| EvSockSend (data : list byte)
| EvSockRecv (bufsize : Z)
| EvSockClose.

Record State (World : Type) : Type := mkState {
  world : World;
  log : list Event
}.
Arguments mkState {World} world log.
Arguments world {World} s.
Arguments log {World} s.

(** Computations that thread the world and the log. *)
Definition M (World A : Type) : Type := State World -> A * State World.

Definition ret {World A} (a : A) : M World A := fun s => (a, s).

Definition bind {World A B} (m : M World A) (k : A -> M World B) : M World B :=
  fun s => let '(a, s') := m s in k a s'.

Notation "x <- m ;; k" := (bind m (fun x => k))
  (at level 61, m at next level, right associativity).

(** [for x in xs: acc = body(x, acc)]. *)
Fixpoint for_each {World A B} (xs : list A) (body : A -> B -> M World B)
    (acc : B) : M World B :=
  match xs with
  | [] => ret acc
  | x :: rest => acc' <- body x acc ;; for_each rest body acc'
  end.

(** The results of running [f] on each element in turn; the loops of the
    scripts that append one result per round are instances of it. *)
Fixpoint collect {World A B} (f : A -> M World B) (xs : list A)
  : M World (list B) :=
  match xs with
  | [] => ret []
  | x :: rest => y <- f x ;; ys <- collect f rest ;; ret (y :: ys)
  end.

Section Calls.
Context {World : Type} `{Network World}.

(** One call into the world, recorded in the log. *)
Definition call {A} (ev : A -> Event) (f : World -> A * World) : M World A :=
  fun s => let '(a, w) := f (world s) in (a, mkState w (log s ++ [ev a])%list).

Definition client_connect (client : Client) : M World bool :=
  call (EvConnect client) (net_connect client).

Definition read_coils (client : Client) (address count : Z) :=
  call (fun o => EvRequest client (ReadCoils address count) (tag_of o))
       (net_read_coils client address count).

Definition read_holding_registers (client : Client) (address count : Z) :=
  call (fun o => EvRequest client (ReadHolding address count) (tag_of o))
       (net_read_holding_registers client address count).

Definition read_input_registers (client : Client) (address count : Z) :=
  call (fun o => EvRequest client (ReadInput address count) (tag_of o))
       (net_read_input_registers client address count).

Definition write_registers (client : Client) (address : Z) (values : list Z) :=
  call (fun o => EvRequest client (WriteRegisters address values) (tag_of o))
       (net_write_registers client address values).

Definition read_device_information (client : Client) :=
  call (fun o => EvRequest client ReadDeviceInformation (tag_of o))
       (net_read_device_information client).

Definition client_close (client : Client) : M World unit :=
  call (fun _ => EvClose client) (fun w => (tt, net_close client w)).

Definition connected_of (o : Outcome unit) : bool :=
  match o with Returned _ => true | Raised _ => false end.

(** [socket.create_connection((ip, port), timeout=timeout)]. *)
Definition create_connection (ip : string) (port timeout : Z) :=
  call (fun o => EvSockConnect ip port timeout (connected_of o))
       (sock_create_connection ip port).

Definition send (data : list byte) :=
  call (fun _ => EvSockSend data) (sock_send data).

(** [s.recv(bufsize)] hands back at most [bufsize] bytes. *)
Definition recv (bufsize : Z) : M World (Outcome (list byte)) :=
  call (fun _ => EvSockRecv bufsize)
       (fun w => let '(o, w') := sock_recv w in
                 (match o with
                  | Returned data => Returned (firstn (Z.to_nat bufsize) data)
                  | Raised msg => Raised msg
                  end, w')).

Definition close_socket := call (fun _ => EvSockClose) sock_close.

(** [random.randint(a, b)] for [a <= b]: an integer of [[a, b]]. *)
Definition randint (a b : Z) : M World Z :=
  fun s => let '(r, w) := random_source (world s) in
           (a + r mod (b - a + 1), mkState w (log s)).

End Calls.

(** ** The standard [ipaddress] module, as far as the scripts use it

    [IPv4Network(subnet)] with the default [strict=True], and its [hosts()],
    following CPython's [Lib/ipaddress.py]. *)

Module IPAddress.
Import Py.

Definition ALL_ONES : Z := 2 ^ 32 - 1.
Definition max_prefixlen : Z := 32.

(** [str.split(sep)] for a one-character separator. *)
Fixpoint split (sep : ascii) (s : string) : list string :=
  match s with
  | EmptyString => [EmptyString]
  | String c rest =>
      if Ascii.eqb c sep then EmptyString :: split sep rest
      else match split sep rest with
           | first :: others => String c first :: others
           | [] => [String c EmptyString]
           end
  end.

Definition is_digit (c : ascii) : bool :=
  let n := N_of_ascii c in ((48 <=? n) && (n <=? 57))%N.

Fixpoint all_digits (s : string) : bool :=
  match s with
  | EmptyString => true
  | String c rest => is_digit c && all_digits rest
  end.

(** [s.isascii() and s.isdigit()]: false on the empty string. *)
Definition isdigit (s : string) : bool := truthy s && all_digits s.

(** [int(s, 10)] on a string of digits. *)
Fixpoint int_of_digits (acc : Z) (s : string) : Z :=
  match s with
  | EmptyString => acc
  | String c rest =>
      int_of_digits (10 * acc + (Z.of_N (N_of_ascii c) - 48)) rest
  end.

(** [_parse_octet]: one to three digits, no leading zero, at most 255. *)
Definition parse_octet (octet_str : string) : option Z :=
  if negb (isdigit octet_str) then None
  else if (3 <? String.length octet_str)%nat then None
  else if negb (String.eqb octet_str "0") && String.prefix "0" octet_str
       then None
  else let octet_int := int_of_digits 0 octet_str in
       if 255 <? octet_int then None else Some octet_int.

(** [_ip_int_from_string]: four octets, big-endian. *)
Definition ip_int_from_string (ip_str : string) : option Z :=
  match map parse_octet (split "." ip_str) with
  | [Some a; Some b; Some c; Some d] =>
      Some (Z.lor (Z.shiftl a 24)
                  (Z.lor (Z.shiftl b 16) (Z.lor (Z.shiftl c 8) d)))
  | _ => None
  end.

(** [_ip_int_from_prefix]. *)
Definition ip_int_from_prefix (prefixlen : Z) : Z :=
  Z.lxor ALL_ONES (Z.shiftr ALL_ONES prefixlen).

(** [_prefix_from_prefix_string]. *)
Definition prefix_from_prefix_string (prefixlen_str : string) : option Z :=
  if negb (isdigit prefixlen_str) then None
  else let prefixlen := int_of_digits 0 prefixlen_str in
       if (0 <=? prefixlen) && (prefixlen <=? max_prefixlen)
       then Some prefixlen else None.

(** [_prefix_from_ip_int]: the prefix length whose netmask is [ip_int]. *)
Definition prefix_from_ip_int (ip_int : Z) : option Z :=
  find (fun p => ip_int_from_prefix p =? ip_int) (range1 (max_prefixlen + 1)).

(** [_prefix_from_ip_string]: a netmask, else a hostmask. *)
Definition prefix_from_ip_string (ip_str : string) : option Z :=
  match ip_int_from_string ip_str with
  | None => None
  | Some ip_int =>
      match prefix_from_ip_int ip_int with
      | Some p => Some p
      | None => prefix_from_ip_int (Z.lxor ip_int ALL_ONES)
      end
  end.

(** [_make_netmask] on the text after the slash. *)
Definition make_netmask (arg : string) : option Z :=
  match prefix_from_prefix_string arg with
  | Some p => Some p
  | None => prefix_from_ip_string arg
  end.

Record IPv4Network : Type := mkNetwork {
  network_address : Z;
  prefixlen : Z
}.

Definition netmask (net : IPv4Network) : Z :=
  ip_int_from_prefix (prefixlen net).

Definition hostmask (net : IPv4Network) : Z :=
  Z.lxor (netmask net) ALL_ONES.

Definition broadcast_address (net : IPv4Network) : Z :=
  Z.lor (network_address net) (hostmask net).

Definition num_addresses (net : IPv4Network) : Z :=
  broadcast_address net - network_address net + 1.

(** [IPv4Network(address)]: any malformed text, and any address with host
    bits set, raises a [ValueError]. *)
Definition parse_network (address : string) : Completion IPv4Network :=
  let parts := split "/" address in
  let parsed :=
    match parts with
    | [addr] =>
        match ip_int_from_string addr with
        | Some packed => Some (packed, max_prefixlen)
        | None => None
        end
    | [addr; mask] =>
        match ip_int_from_string addr, make_netmask mask with
        | Some packed, Some p => Some (packed, p)
        | _, _ => None
        end
    | _ => None
    end in
  match parsed with
  | None => Throws ValueError
  | Some (packed, p) =>
      if Z.land packed (ip_int_from_prefix p) =? packed
      then Returns (mkNetwork packed p)
      else Throws ValueError
  end.

(** [hosts()]: the addresses strictly between the network and the broadcast
    address; a /31 yields both of its addresses and a /32 its only one. *)
Definition hosts (net : IPv4Network) : list Z :=
  let network := network_address net in
  let broadcast := broadcast_address net in
  if prefixlen net =? max_prefixlen - 1 then
    match range network (broadcast + 1) 1 with
    | Returns l => l | Throws _ => []
    end
  else if prefixlen net =? max_prefixlen then [network]
  else match range (network + 1) broadcast 1 with
       | Returns l => l | Throws _ => []
       end.

(** [str(ip)] of an [IPv4Address]. *)
Definition str_of_address (ip : Z) : string :=
  str_of_int (Z.land (Z.shiftr ip 24) 255) ++ "." ++
  str_of_int (Z.land (Z.shiftr ip 16) 255) ++ "." ++
  str_of_int (Z.land (Z.shiftr ip 8) 255) ++ "." ++
  str_of_int (Z.land ip 255).

End IPAddress.

(** ** Result records *)

(** The dict built for each scan window or fuzz round:
    [{"Host", "Type", "Address", "Values", "Status"}]. *)
Record ProbeResult (V : Type) : Type := mkProbeResult {
  Host : string;
  Type_ : string;
  Address : Z;
  Values : list V;
  Status : string
}.
Arguments mkProbeResult {V} Host Type_ Address Values Status.
Arguments Host {V} p.
Arguments Type_ {V} p.
Arguments Address {V} p.
Arguments Values {V} p.
Arguments Status {V} p.

(** The values a fingerprint record holds.  [FRepr patterns] stands for the
    string [str(patterns)], whose text is left unexpanded. *)
Inductive FieldValue : Type :=
| FStr (s : string)
| FInt (n : Z)
| FRepr (patterns : list (ProbeResult Z)).

(** A fingerprint record: a flat dict, keys in insertion order. *)
Definition FingerprintRecord : Type := Py.dict FieldValue.

(** [for obj_id, value in response.information.items():
       info[f"device_{obj_id}"] = value]. *)
Definition add_device_fields (information : list (Z * string))
    (info : FingerprintRecord) : FingerprintRecord :=
  fold_left
    (fun info '(obj_id, value) =>
       Py.setitem ("device_" ++ Py.str_of_int obj_id) (FStr value) info)
    information info.

(** The [status] and [values] a scan window ends with: the [try] body on a
    response, the [except Exception as e] handler on an exception. *)
Definition window_outcome {V} (o : Outcome (Response (list V)))
  : string * list V :=
  match o with
  | Returned response =>
      let status := if negb (isError response) then "OK" else "Error" in
      let values :=
        match response with Normal payload => payload | ErrorResponse => [] end
      in (status, values)
  | Raised e => ("Exception: " ++ e, [])
  end.

(** The [status] of a fuzz round. *)
Definition write_outcome (o : Outcome (Response unit)) : string :=
  match o with
  | Returned response => if negb (isError response) then "OK" else "Error"
  | Raised e => "Exception: " ++ e
  end.

(** ** modbus_toolkit.py *)

Module Toolkit.
Import Py.

(** The request [banner_grab] sends. *)
Definition banner_request : list byte :=
  [x00; x00; x00; x06; x01; x03; x00; x00; x00; x01].

Section WithNetwork.
Context {World : Type} `{Network World}.

Definition connect (ip : string) (port : Z) : M World (option Client) :=
  let client := mkClient ip port in
  connected <- client_connect client ;;
  ret (if connected then Some client else None).

(** Every statement of [banner_grab] sits in the [try]; any exception gives
    [None]. *)
Definition banner_grab (ip : string) (port : Z) : M World (option string) :=
  s <- create_connection ip port 2 ;;
  match s with
  | Raised _ => ret None
  | Returned _ =>
      sent <- send banner_request ;;
      match sent with
      | Raised _ => ret None
      | Returned _ =>
          received <- recv 1024 ;;
          match received with
          | Raised _ => ret None
          | Returned data =>
              closed <- close_socket ;;
              match closed with
              | Raised _ => ret None
              | Returned _ => ret (Some (hex data))
              end
          end
      end
  end.

(** The body of the loop of [scan_registers]: one window. *)
Definition register_window (client : Client) (ip : string) (step : Z)
    (reg_type : string) (addr : Z) : M World (ProbeResult Z) :=
  o <- (if String.eqb reg_type "holding"
        then read_holding_registers client addr step
        else read_input_registers client addr step) ;;
  let '(status, values) := window_outcome o in
  ret (mkProbeResult ip reg_type addr values status).

Definition scan_registers (client : Client) (ip : string)
    (start end_ step : Z) (reg_type : string)
  : M World (Completion (list (ProbeResult Z))) :=
  match range start end_ step with
  | Throws e => ret (Throws e)
  | Returns addrs =>
      results <-
        for_each addrs
          (fun addr results =>
             r <- register_window client ip step reg_type addr ;;
             ret (results ++ [r])%list)
          [] ;;
      ret (Returns results)
  end.

(** The body of the loop of [scan_coils]. *)
Definition coil_window (client : Client) (ip : string) (step addr : Z)
  : M World (ProbeResult bool) :=
  o <- read_coils client addr step ;;
  let '(status, values) := window_outcome o in
  ret (mkProbeResult ip "coil" addr values status).

Definition scan_coils (client : Client) (ip : string) (start end_ step : Z)
  : M World (Completion (list (ProbeResult bool))) :=
  match range start end_ step with
  | Throws e => ret (Throws e)
  | Returns addrs =>
      results <-
        for_each addrs
          (fun addr results =>
             r <- coil_window client ip step addr ;;
             ret (results ++ [r])%list)
          [] ;;
      ret (Returns results)
  end.

(** [[random.randint(0, 65535) for _ in range(count)]]. *)
Definition random_values (count : Z) : M World (list Z) :=
  for_each (range1 count)
    (fun _ values => v <- randint 0 65535 ;; ret (values ++ [v])%list) [].

(** One round of [fuzz_registers]. *)
Definition fuzz_round (client : Client) (ip : string) (count : Z)
  : M World (ProbeResult Z) :=
  addr <- randint 0 120 ;;
  values <- random_values count ;;
  o <- write_registers client addr values ;;
  let status := write_outcome o in
  ret (mkProbeResult ip "fuzz_register" addr values status).

Definition fuzz_registers (client : Client) (ip : string)
    (count iterations : Z) : M World (list (ProbeResult Z)) :=
  for_each (range1 iterations)
    (fun _ results =>
       r <- fuzz_round client ip count ;; ret (results ++ [r])%list)
    [].

Definition fallback_fingerprint (client : Client) (ip : string)
  : M World (Completion FingerprintRecord) :=
  scanned <- scan_registers client ip 0 10 2 "holding" ;;
  match scanned with
  | Throws e => ret (Throws e)
  | Returns patterns =>
      banner <- banner_grab ip 502 ;;
      ret (Returns
        [("Host", FStr ip);
         ("Type", FStr "fallback_fingerprint");
         ("Status", FStr "OK");
         ("Banner", FStr (match banner with
                          | Some b => if truthy b then b else "None"
                          | None => "None"
                          end));
         ("RegisterSample", FRepr patterns)])
  end.

Definition fingerprint_device (client : Client) (ip : string)
  : M World (Completion FingerprintRecord) :=
  o <- read_device_information client ;;
  match o with
  | Returned ErrorResponse =>
      r <- fallback_fingerprint client ip ;;
      match r with
      | Returns record => ret (Returns record)
      | Throws _ => fallback_fingerprint client ip
      end
  | Returned (Normal information) =>
      let info := [("Host", FStr ip); ("Type", FStr "device_info");
                   ("Status", FStr "OK")] in
      ret (Returns (add_device_fields information info))
  | Raised _ => fallback_fingerprint client ip
  end.

(** [check_modbus]: the liveness task of the subnet sweep. *)
Definition check_modbus (ip : string) (port : Z) : M World (option string) :=
  c <- connect ip port ;;
  match c with
  | Some client =>
      o <- read_coils client 0 1 ;;
      match o with
      | Returned (Normal _) => ret (Some ip)
      | Returned ErrorResponse => _ <- client_close client ;; ret None
      | Raised _ => _ <- client_close client ;; ret None
      end
  | None => ret None
  end.

(** The loop of [main] over the targets, with [--fingerprint] set: the
    records appended to [all_results].  An exception in the body is logged
    and the loop goes on. *)
Definition collect_fingerprints (targets : list string) (port : Z)
  : M World (list FingerprintRecord) :=
  for_each targets
    (fun ip all_results =>
       c <- connect ip port ;;
       match c with
       | None => ret all_results
       | Some client =>
           r <- fingerprint_device client ip ;;
           match r with
           | Throws _ => ret all_results
           | Returns info =>
               _ <- client_close client ;;
               ret (match info with
                    | [] => all_results
                    | _ => (all_results ++ [info])%list
                    end)
           end
       end)
    [].

End WithNetwork.

(** The arguments [scan_subnet] submits to the worker pool, one
    [check_modbus(str(ip), port)] per element of [hosts()]. *)
Definition scan_subnet_tasks (subnet : string) (port : Z)
  : Completion (list (string * Z)) :=
  match IPAddress.parse_network subnet with
  | Throws e => Throws e
  | Returns net =>
      Returns (map (fun ip => (IPAddress.str_of_address ip, port))
                   (IPAddress.hosts net))
  end.

End Toolkit.

(** ** modbusrecon_toolkit.py *)

Module Recon.
Import Py.

(** Known vendor signatures, in declaration order. *)
Definition DEVICE_SIGNATURES : dict string :=
  [("Schneider Electric", "Schneider PLC");
   ("Siemens", "Siemens S7");
   ("WAGO", "WAGO Controller");
   ("Mitsubishi", "Mitsubishi Electric PLC");
   ("Modicon", "Modicon PLC");
   ("Rockwell", "Allen-Bradley PLC");
   ("Delta", "Delta PLC")].

(** [sig.lower() in str(v).lower()]. *)
Definition signature_in (sig v : string) : bool :=
  contains (lower sig) (lower v).

(** The inner loop of [identify_vendor] on one value: [for sig in
    DEVICE_SIGNATURES], returning [DEVICE_SIGNATURES[sig]] at the first
    signature the value contains. *)
Fixpoint scan_signatures (table : dict string) (v : string) : option string :=
  match table with
  | [] => None
  | (sig, label) :: rest =>
      if signature_in sig v then Some label else scan_signatures rest v
  end.

(** The outer loop: [for k, v in info.items()]. *)
Fixpoint identify_vendor (info : list (Z * string)) : string :=
  match info with
  | [] => "Unknown Device"
  | (_, v) :: rest =>
      match scan_signatures DEVICE_SIGNATURES v with
      | Some label => label
      | None => identify_vendor rest
      end
  end.

(** [save_csv]: the header is the key list of the first record; a row with a
    key outside the header makes [csv.DictWriter] raise [ValueError], a key
    the row lacks is written as the empty string.  The result is the header
    followed by the rows. *)
Definition csv_row (fieldnames : list string) (row : FingerprintRecord)
  : Completion (list FieldValue) :=
  if forallb (fun k => existsb (String.eqb k) fieldnames) (keys row)
  then Returns (map (fun k => match getitem k row with
                              | Some v => v
                              | None => FStr ""
                              end) fieldnames)
  else Throws ValueError.

Fixpoint csv_rows (fieldnames : list string) (data : list FingerprintRecord)
  : Completion (list (list FieldValue)) :=
  match data with
  | [] => Returns []
  | row :: rest =>
      match csv_row fieldnames row with
      | Throws e => Throws e
      | Returns cells =>
          match csv_rows fieldnames rest with
          | Throws e => Throws e
          | Returns others => Returns (cells :: others)
          end
      end
  end.

Definition save_csv (data : list FingerprintRecord)
  : Completion (list (list FieldValue)) :=
  match data with
  | [] => Throws IndexError
  | first :: _ =>
      let fieldnames := keys first in
      match csv_rows fieldnames data with
      | Throws e => Throws e
      | Returns rows => Returns (map FStr fieldnames :: rows)
      end
  end.

Section WithNetwork.
Context {World : Type} `{Network World}.

Definition connect (ip : string) (port : Z) : M World (option Client) :=
  let client := mkClient ip port in
  connected <- client_connect client ;;
  ret (if connected then Some client else None).

Definition fingerprint_device (client : Client) (ip : string) (port : Z)
  : M World (option FingerprintRecord) :=
  o <- read_device_information client ;;
  match o with
  | Returned ErrorResponse => ret None
  | Returned (Normal information) =>
      let info := [("Host", FStr ip); ("Port", FInt port);
                   ("Type", FStr "device_info"); ("Status", FStr "OK")] in
      let info := add_device_fields information info in
      let info := setitem "Vendor" (FStr (identify_vendor information)) info in
      ret (Some info)
  | Raised e =>
      ret (Some [("Host", FStr ip); ("Port", FInt port);
                 ("Type", FStr "device_info");
                 ("Status", FStr ("Exception: " ++ e))])
  end.

(** [check_modbus]: the ports in turn, the first live one wins.  [ip] is
    the [IPv4Address] the subnet sweep passes. *)
Fixpoint check_modbus (ip : Z) (ports : list Z)
  : M World (option (string * Z)) :=
  match ports with
  | [] => ret None
  | port :: rest =>
      let client := mkClient (IPAddress.str_of_address ip) port in
      connected <- client_connect client ;;
      if negb connected then check_modbus ip rest
      else
        o <- read_coils client 0 1 ;;
        match o with
        | Returned (Normal _) =>
            _ <- client_close client ;;
            ret (Some (IPAddress.str_of_address ip, port))
        | Returned ErrorResponse =>
            _ <- client_close client ;; check_modbus ip rest
        | Raised _ => check_modbus ip rest
        end
  end.

(** The loop of [main] over the targets, with [--fingerprint] set. *)
Definition collect_fingerprints (targets : list (string * Z))
  : M World (list FingerprintRecord) :=
  for_each targets
    (fun '(ip, port) all_results =>
       c <- connect ip port ;;
       match c with
       | None => ret all_results
       | Some client =>
           result <- fingerprint_device client ip port ;;
           _ <- client_close client ;;
           ret (match result with
                | Some [] => all_results
                | Some info => (all_results ++ [info])%list
                | None => all_results
                end)
       end)
    [].

End WithNetwork.

(** The arguments [scan_subnet] submits to the worker pool, one
    [check_modbus(ip, ports, skip_logs)] per element of [hosts()]. *)
Definition scan_subnet_tasks (subnet : string) (ports : list Z)
  : Completion (list (Z * list Z)) :=
  match IPAddress.parse_network subnet with
  | Throws e => Throws e
  | Returns net => Returns (map (fun ip => (ip, ports)) (IPAddress.hosts net))
  end.

End Recon.

(** ** Vocabulary of the properties *)

(** The text of a status: [OK], [Error] or [Exception:<text>]. *)
Definition tag_text (t : StatusTag) : string :=
  match t with
  | OK => "OK"
  | Error => "Error"
  | Exception detail => "Exception: " ++ detail
  end.

Definition StatusText (status : string) : Prop :=
  status = "OK" \/ status = "Error" \/
  exists text, status = "Exception:" ++ text.

Definition is_status_text (status : string) : bool :=
  String.eqb status "OK" || String.eqb status "Error" ||
  String.prefix "Exception:" status.

(** The device-identification request failed: a protocol error response or a
    transport exception. *)
Definition request_failed {P} (o : Outcome (Response P)) : bool :=
  match o with
  | Returned (Normal _) => false
  | Returned ErrorResponse => true
  | Raised _ => true
  end.

(** Lower-case hexadecimal text. *)
Definition is_hex_char (c : ascii) : bool :=
  let n := N_of_ascii c in
  (((48 <=? n) && (n <=? 57)) || ((97 <=? n) && (n <=? 102)))%N.

Fixpoint is_hex_string (s : string) : bool :=
  match s with
  | EmptyString => true
  | String c rest => is_hex_char c && is_hex_string rest
  end.

(** The banner text a fallback record stores: the marker [None], or
    non-empty hexadecimal text. *)
Definition banner_text (b : string) : Prop :=
  b = "None" \/ (b <> "" /\ is_hex_string b = true).

(** The request and the tag an event of the log carries. *)
Definition event_request (ev : Event) : option (Client * Request) :=
  match ev with
  | EvRequest client request _ => Some (client, request)
  | _ => None
  end.

Definition event_tag (ev : Event) : option StatusTag :=
  match ev with
  | EvRequest _ _ tag => Some tag
  | _ => None
  end.

(** Session accounting over a log: the clients connected and not closed
    since, and the number of raw sockets opened and not closed since. *)
Definition client_eqb (a b : Client) : bool :=
  String.eqb (client_host a) (client_host b) &&
  (client_port a =? client_port b).

Fixpoint remove_client (c : Client) (opened : list Client) : list Client :=
  match opened with
  | [] => []
  | c' :: rest => if client_eqb c c' then rest else c' :: remove_client c rest
  end.

Fixpoint open_clients (events : list Event) (opened : list Client)
  : list Client :=
  match events with
  | [] => opened
  | EvConnect c true :: rest => open_clients rest (opened ++ [c])
  | EvClose c :: rest => open_clients rest (remove_client c opened)
  | _ :: rest => open_clients rest opened
  end.

Fixpoint open_sockets (events : list Event) (opened : nat) : nat :=
  match events with
  | [] => opened
  | EvSockConnect _ _ _ true :: rest => open_sockets rest (S opened)
  | EvSockClose :: rest => open_sockets rest (pred opened)
  | _ :: rest => open_sockets rest opened
  end.

(** What the result of a scan window at [addr] satisfies. *)
Record window_ok {V} (ip type : string) (addr : Z) (r : ProbeResult V)
  : Prop := {
  window_host : Host r = ip;
  window_type : Type_ r = type;
  window_address : Address r = addr;
  window_status : StatusText (Status r);
  window_values : Status r <> "OK" -> Values r = []
}.

(** The request [scan_registers] issues for a window. *)
Definition register_request (reg_type : string) (step addr : Z) : Request :=
  if String.eqb reg_type "holding"
  then ReadHolding addr step else ReadInput addr step.

(** A run from [s] to [s'] issued exactly one request per address of
    [addrs], in order, and [results] holds one result per request, in the
    same order, each with the address of its window and the status of its
    request. *)
Definition one_per_window {World V} (client : Client) (request : Z -> Request)
    (addrs : list Z) (s s' : State World) (results : list (ProbeResult V))
  : Prop :=
  exists events,
    log s' = (log s ++ events)%list /\
    map event_request events = map (fun a => Some (client, request a)) addrs /\
    map (@Address V) results = addrs /\
    map (fun e => option_map tag_text (event_tag e)) events =
    map (fun r => Some (Status r)) results.

(** [addrs] is the arithmetic progression [start, start + step, ...] cut
    where it leaves the range: term [i] belongs to it exactly when it lies
    before [end_] (after it, for a negative step). *)
Definition windows_of (start end_ step : Z) (addrs : list Z) : Prop :=
  exists n : nat,
    addrs = map (fun i => start + Z.of_nat i * step) (seq 0 n) /\
    forall i : Z, 0 <= i ->
      (i < Z.of_nat n <->
       if 0 <? step then start + i * step < end_
       else end_ < start + i * step).

(** A value contains no signature of the table; a value contains no
    signature other than Siemens. *)
Definition no_signature_in (v : string) : bool :=
  forallb (fun '(sig, _) => negb (Recon.signature_in sig v))
          Recon.DEVICE_SIGNATURES.

Definition only_siemens_in (v : string) : bool :=
  forallb (fun '(sig, _) =>
             String.eqb sig "Siemens" || negb (Recon.signature_in sig v))
          Recon.DEVICE_SIGNATURES.

(** The label of the first signature, in table order, that [v] contains. *)
Definition first_label_in (v : string) : option string :=
  option_map snd
    (find (fun '(sig, _) => Recon.signature_in sig v) Recon.DEVICE_SIGNATURES).

(** The frames a log shows as sent over raw sockets, and the buffer sizes
    of its receive calls. *)
Definition sent_frames (events : list Event) : list (list byte) :=
  flat_map (fun e => match e with EvSockSend data => [data] | _ => [] end)
           events.

Definition recv_sizes (events : list Event) : list Z :=
  flat_map (fun e => match e with EvSockRecv n => [n] | _ => [] end) events.

(** Two records have the same key set. *)
Definition same_keys (a b : FingerprintRecord) : bool :=
  forallb (fun k => Py.has_key k b) (Py.keys a) &&
  forallb (fun k => Py.has_key k a) (Py.keys b).

(** ** The statements of the specification that the code is compared with *)

Module Spec.

(** The Modbus TCP request frame of the specification's wire protocol: a
    2-byte transaction id, a 2-byte protocol id, a 2-byte length, a 1-byte
    unit id, then the function code, the start address and the count. *)
Record ReadFrame : Type := mkReadFrame {
  transaction_id : Z;
  protocol_id : Z;
  length_field : Z;
  unit_id : Z;
  function_code : Z;
  start_address : Z;
  register_count : Z
}.

Definition u8 (n : Z) : byte :=
  match Byte.of_N (Z.to_N (n mod 256)) with Some b => b | None => x00 end.

Definition u16 (n : Z) : list byte := [u8 (n / 256); u8 n].

Definition encode (f : ReadFrame) : list byte :=
  (u16 (transaction_id f) ++ u16 (protocol_id f) ++ u16 (length_field f) ++
   [u8 (unit_id f); u8 (function_code f)] ++
   u16 (start_address f) ++ u16 (register_count f))%list.

Definition word (hi lo : byte) : Z :=
  256 * Z.of_N (Byte.to_N hi) + Z.of_N (Byte.to_N lo).

Definition decode (frame : list byte) : option ReadFrame :=
  match frame with
  | [t1; t0; p1; p0; l1; l0; u; f; a1; a0; c1; c0] =>
      Some (mkReadFrame (word t1 t0) (word p1 p0) (word l1 l0)
              (Z.of_N (Byte.to_N u)) (Z.of_N (Byte.to_N f))
              (word a1 a0) (word c1 c0))
  | _ => None
  end.

(** The header a receiver reads off the first seven bytes of a frame:
    transaction id, protocol id, length, unit id. *)
Definition decode_header (frame : list byte) : option (Z * Z * Z * Z) :=
  match frame with
  | t1 :: t0 :: p1 :: p0 :: l1 :: l0 :: u :: _ =>
      Some (word t1 t0, word p1 p0, word l1 l0, Z.of_N (Byte.to_N u))
  | _ => None
  end.

(** The banner probe frame as the specification gives it: transaction id 0,
    protocol id 0, length 6, unit id 1, function code 3, start address 0,
    count 1. *)
Definition banner_frame : ReadFrame := mkReadFrame 0 0 6 1 3 0 1.

(** Vendor identification as the specification words it: the label of the
    first signature, in table order, that some value of the mapping
    contains. *)
Definition vendor_by_table_order (info : list (Z * string)) : string :=
  match find (fun '(sig, _) =>
                existsb (fun '(_, v) => Recon.signature_in sig v) info)
             Recon.DEVICE_SIGNATURES with
  | Some (_, label) => label
  | None => "Unknown Device"
  end.

End Spec.

(** ** Concrete worlds, to run the scripts on *)

(** A world that answers the successive calls from a script; when the script
    runs out, or holds an answer of another kind, connections fail and
    requests time out.  [net_close] takes no answer. *)
Module Scripted.

Inductive Answer : Type :=
| Connects (ok : bool)
| Fails (msg : string)
| Refuses
| Registers (values : list Z)
| Bits (values : list bool)
| Written
| Information (fields : list (Z * string))
| Done
| Bytes (data : list byte)
| Random (n : Z).

Definition World : Type := list Answer.

Definition next {A} (pick : Answer -> option A) (default : A) (w : World)
  : A * World :=
  match w with
  | [] => (default, [])
  | a :: rest =>
      (match pick a with Some r => r | None => default end, rest)
  end.

Definition timed_out {A} : Outcome A := Raised "timed out".

Definition reply {P} (payload : Answer -> option P) (a : Answer)
  : option (Outcome (Response P)) :=
  match a with
  | Fails msg => Some (Raised msg)
  | Refuses => Some (Returned ErrorResponse)
  | _ => match payload a with
         | Some p => Some (Returned (Normal p))
         | None => None
         end
  end.

Definition plain {A} (value : Answer -> option A) (a : Answer)
  : option (Outcome A) :=
  match a with
  | Fails msg => Some (Raised msg)
  | _ => match value a with Some v => Some (Returned v) | None => None end
  end.

#[global] Instance network : Network World := {
  net_connect _ :=
    next (fun a => match a with Connects ok => Some ok | _ => None end) false;
  net_read_coils _ _ _ :=
    next (reply (fun a => match a with Bits v => Some v | _ => None end))
         timed_out;
  net_read_holding_registers _ _ _ :=
    next (reply (fun a => match a with Registers v => Some v | _ => None end))
         timed_out;
  net_read_input_registers _ _ _ :=
    next (reply (fun a => match a with Registers v => Some v | _ => None end))
         timed_out;
  net_write_registers _ _ _ :=
    next (reply (fun a => match a with Written => Some tt | _ => None end))
         timed_out;
  net_read_device_information _ :=
    next (reply (fun a => match a with Information f => Some f | _ => None end))
         timed_out;
  net_close _ w := w;
  sock_create_connection _ _ :=
    next (plain (fun a => match a with Done => Some tt | _ => None end))
         timed_out;
  sock_send _ :=
    next (plain (fun a => match a with Done => Some tt | _ => None end))
         timed_out;
  sock_recv :=
    next (plain (fun a => match a with Bytes d => Some d | _ => None end))
         timed_out;
  sock_close :=
    next (plain (fun a => match a with Done => Some tt | _ => None end))
         timed_out;
  random_source :=
    next (fun a => match a with Random n => Some n | _ => None end) 0
}.

(** Run a computation from an empty log; the result and the log. *)
Definition run {A} (m : M World A) (script : World) : A * list Event :=
  let '(a, s) := m (mkState script []) in (a, log s).

End Scripted.

(** A device that answers every request with a protocol error; the world is
    the stream of numbers the random generator will draw. *)
Module Refusing.

Definition World : Type := list Z.

#[global] Instance network : Network World := {
  net_connect _ w := (true, w);
  net_read_coils _ _ _ w := (Returned ErrorResponse, w);
  net_read_holding_registers _ _ _ w := (Returned ErrorResponse, w);
  net_read_input_registers _ _ _ w := (Returned ErrorResponse, w);
  net_write_registers _ _ _ w := (Returned ErrorResponse, w);
  net_read_device_information _ w := (Returned ErrorResponse, w);
  net_close _ w := w;
  sock_create_connection _ _ w := (Raised "connection refused", w);
  sock_send _ w := (Raised "not connected", w);
  sock_recv w := (Raised "not connected", w);
  sock_close w := (Returned tt, w);
  random_source w := match w with [] => (0, []) | n :: rest => (n, rest) end
}.

End Refusing.

(** ** Report rendering: [save_html] of both scripts

    The text written to the report file.  [repr_of_patterns] stands for
    Python's [str] of the list of result dicts, the text a fallback record
    keeps under [RegisterSample]. *)

Definition nl : string := String (ascii_of_nat 10) EmptyString.

Module Html.
Section WithRepr.
Variable repr_of_patterns : list (ProbeResult Z) -> string.

(** [str(v)], what [f"{v}"] prints. *)
Definition str (v : FieldValue) : string :=
  match v with
  | FStr s => s
  | FInt n => Py.str_of_int n
  | FRepr patterns => repr_of_patterns patterns
  end.

(** [css = str(v).split(":")[0] if k == "Status" else ""]. *)
Definition css_of (k : string) (v : FieldValue) : string :=
  if String.eqb k "Status"
  then hd EmptyString (IPAddress.split ":" (str v))
  else EmptyString.

(** [html += f"<td class='{css}'>{v}</td>"]. *)
Definition add_cell (html : string) (item : string * FieldValue) : string :=
  let '(k, v) := item in
  html ++ "<td class='" ++ css_of k v ++ "'>" ++ str v ++ "</td>".

(** The loop over the rows; [row_end] is what closes a row. *)
Definition add_rows (row_end : string) (html : string)
    (data : list FingerprintRecord) : string :=
  fold_left
    (fun html row => fold_left add_cell row (html ++ "<tr>") ++ row_end)
    data html.

(** [''.join(f'<th>{k}</th>' for k in data[0].keys())]. *)
Definition header_cells (first : FingerprintRecord) : string :=
  String.concat EmptyString
    (map (fun k => "<th>" ++ k ++ "</th>") (Py.keys first)).

End WithRepr.
End Html.

Module ToolkitReport.

(** The constant text between the two titles. *)
Definition style_block : string :=
  "</title><style>" ++ nl ++
  "    body { font-family: Arial; }" ++ nl ++
  "    table { border-collapse: collapse; width: 100%; }" ++ nl ++
  "    th, td { border: 1px solid #ddd; padding: 8px; }" ++ nl ++
  "    th { background-color: #444; color: #fff; }" ++ nl ++
  "    tr:nth-child(even) { background-color: #f9f9f9; }" ++ nl ++
  "    .OK { color: green; } .Error, .Exception { color: red; }" ++ nl ++
  "    </style></head><body><h2>".

(** [save_html] of modbus_toolkit.py: [data[0]] raises IndexError on an
    empty list. *)
Definition save_html (repr_of_patterns : list (ProbeResult Z) -> string)
    (data : list FingerprintRecord) (title : string)
  : Py.Completion string :=
  match data with
  | [] => Py.Throws Py.IndexError
  | first :: _ =>
      let html := "<html><head><title>" ++ title ++ style_block ++ title ++
                  "</h2><table>" ++ nl ++ "    <tr>" ++
                  Html.header_cells first ++ "</tr>" ++ nl ++ "    " in
      let html := Html.add_rows repr_of_patterns "</tr>" html data in
      Py.Returns (html ++ "</table></body></html>")
  end.

End ToolkitReport.

Module ReconReport.

(** The constant text between the two titles. *)
Definition style_block : string :=
  "</title>" ++ nl ++
  "<style>" ++ nl ++
  "  body { font-family: Arial; }" ++ nl ++
  "  table { border-collapse: collapse; width: 100%; }" ++ nl ++
  "  th, td { border: 1px solid #ddd; padding: 8px; }" ++ nl ++
  "  th { background-color: #444; color: #fff; }" ++ nl ++
  "  tr:nth-child(even) { background-color: #f9f9f9; }" ++ nl ++
  "  .OK { color: green; }" ++ nl ++
  "  .Error, .Exception { color: red; }" ++ nl ++
  "</style></head><body>" ++ nl ++
  "<h2>".

(** [save_html] of modbusrecon_toolkit.py. *)
Definition save_html (repr_of_patterns : list (ProbeResult Z) -> string)
    (data : list FingerprintRecord) (title : string)
  : Py.Completion string :=
  match data with
  | [] => Py.Throws Py.IndexError
  | first :: _ =>
      let html := "<html><head><title>" ++ title ++ style_block ++ title ++
                  "</h2>" ++ nl ++ "<table>" ++ nl ++ "<tr>" ++
                  Html.header_cells first ++ "</tr>" ++ nl in
      let html :=
        Html.add_rows repr_of_patterns ("</tr>" ++ nl) html data in
      Py.Returns (html ++ "</table></body></html>")
  end.

End ReconReport.

(** ** Vocabulary of the further properties *)

(** The clients a log shows connecting (whatever the outcome), the clients
    whose connection succeeded, the requests answered by a normal response
    and the clients whose request raised. *)
Definition connect_attempts (events : list Event) : list Client :=
  flat_map (fun e => match e with EvConnect c _ => [c] | _ => [] end) events.

Definition connected_clients (events : list Event) : list Client :=
  flat_map (fun e => match e with EvConnect c true => [c] | _ => [] end)
           events.

Definition answered_requests (events : list Event) : list (Client * Request) :=
  flat_map (fun e => match e with
                     | EvRequest c r OK => [(c, r)]
                     | _ => []
                     end) events.

Definition raised_requests (events : list Event) : list Client :=
  flat_map (fun e => match e with
                     | EvRequest c _ (Exception _) => [c]
                     | _ => []
                     end) events.

(** The requests of a log, with the client that issued them. *)
Definition requests_of (events : list Event) : list (Client * Request) :=
  flat_map (fun e => match e with
                     | EvRequest c r _ => [(c, r)]
                     | _ => []
                     end) events.

(** The raw connections a log shows opened: host, port and timeout. *)
Definition socket_targets (events : list Event) : list (string * Z * Z) :=
  flat_map (fun e => match e with
                     | EvSockConnect host port timeout _ =>
                         [(host, port, timeout)]
                     | _ => []
                     end) events.

(** The clients whose device-identification request was answered by
    anything but a protocol error. *)
Definition identified_clients (events : list Event) : list Client :=
  flat_map (fun e => match e with
                     | EvRequest c ReadDeviceInformation Error => []
                     | EvRequest c ReadDeviceInformation _ => [c]
                     | _ => []
                     end) events.

(** No event of the log opens or closes a pymodbus client. *)
Definition session_neutral (events : list Event) : bool :=
  forallb (fun e => match e with
                    | EvConnect _ _ | EvClose _ => false
                    | _ => true
                    end) events.

(** The key under which a device-identification object is stored. *)
Definition device_key (obj_id : Z) : string :=
  "device_" ++ Py.str_of_int obj_id.

(** [piece] occurs, as it is, somewhere in [whole]. *)
Definition occurs_in (piece whole : string) : Prop :=
  exists before after, whole = before ++ piece ++ after.

(** The text of one table cell of the HTML report. *)
Definition html_cell (repr_of_patterns : list (ProbeResult Z) -> string)
    (k : string) (v : FieldValue) : string :=
  "<td class='" ++ Html.css_of repr_of_patterns k v ++ "'>" ++
  Html.str repr_of_patterns v ++ "</td>".

(** The class of a status cell in the HTML report. *)
Definition tag_class (t : StatusTag) : string :=
  match t with
  | OK => "OK"
  | Error => "Error"
  | Exception _ => "Exception"
  end.


(** * Properties *)

(** ** The primitives on concrete inputs *)

Example range_of_the_fallback_window :
  Py.range 0 10 2 = Py.Returns [0; 2; 4; 6; 8].
Proof. vm_compute; reflexivity. Qed.

Example range_with_a_negative_step :
  Py.range 10 0 (-3) = Py.Returns [10; 7; 4; 1].
Proof. vm_compute; reflexivity. Qed.

Example range_with_a_zero_step : Py.range 0 100 0 = Py.Throws Py.ValueError.
Proof. vm_compute; reflexivity. Qed.

Example lower_of_mixed_case : Py.lower "SieMENS s7" = "siemens s7".
Proof. vm_compute; reflexivity. Qed.

Example hex_of_three_bytes : Py.hex [x00; x0a; xff] = "000aff".
Proof. vm_compute; reflexivity. Qed.

Example str_of_some_integers :
  Py.str_of_int 0 = "0" /\ Py.str_of_int 14 = "14" /\
  Py.str_of_int (-3) = "-3".
Proof. repeat split; vm_compute; reflexivity. Qed.

Example setitem_keeps_the_place_of_a_key :
  Py.setitem "b" 5 [("a", 1); ("b", 2); ("c", 3)] =
  [("a", 1); ("b", 5); ("c", 3)].
Proof. vm_compute; reflexivity. Qed.

Example network_in_three_notations :
  IPAddress.parse_network "10.0.0.0/30" =
    Py.Returns (IPAddress.mkNetwork 167772160 30) /\
  IPAddress.parse_network "10.0.0.0/255.255.255.252" =
    Py.Returns (IPAddress.mkNetwork 167772160 30) /\
  IPAddress.parse_network "10.0.0.0/0.0.0.3" =
    Py.Returns (IPAddress.mkNetwork 167772160 30).
Proof. repeat split; vm_compute; reflexivity. Qed.

Example network_with_host_bits_set :
  IPAddress.parse_network "10.0.0.1/30" = Py.Throws Py.ValueError.
Proof. vm_compute; reflexivity. Qed.

Example hosts_of_a_slash_29 :
  map IPAddress.str_of_address
      (IPAddress.hosts (IPAddress.mkNetwork 3232235776 29)) =
  ["192.168.1.1"; "192.168.1.2"; "192.168.1.3"; "192.168.1.4";
   "192.168.1.5"; "192.168.1.6"].
Proof. vm_compute; reflexivity. Qed.

(** A scan of three windows: a response, a protocol error, an exception. *)
Example scan_of_three_windows :
  Scripted.run
    (Toolkit.scan_registers (mkClient "10.0.0.5" 502) "10.0.0.5" 0 6 2
       "holding")
    [Scripted.Registers [1; 2]; Scripted.Refuses; Scripted.Fails "boom"] =
  (Py.Returns
     [mkProbeResult "10.0.0.5" "holding" 0 [1; 2] "OK";
      mkProbeResult "10.0.0.5" "holding" 2 [] "Error";
      mkProbeResult "10.0.0.5" "holding" 4 [] "Exception: boom"],
   [EvRequest (mkClient "10.0.0.5" 502) (ReadHolding 0 2) OK;
    EvRequest (mkClient "10.0.0.5" 502) (ReadHolding 2 2) Error;
    EvRequest (mkClient "10.0.0.5" 502) (ReadHolding 4 2)
      (Exception "boom")]).
Proof. vm_compute; reflexivity. Qed.

(** ** Loops that append one result per round *)

Section Loops.
Context {World : Type}.

Lemma for_each_collect {A B} (body : A -> list B -> M World (list B))
    (f : A -> M World B) :
  (forall x acc s,
      body x acc s = ((acc ++ [fst (f x s)])%list, snd (f x s))) ->
  forall xs acc s,
    for_each xs body acc s =
    ((acc ++ fst (collect f xs s))%list, snd (collect f xs s)).
Proof.
  intros Hbody xs.
  induction xs as [|x xs IH]; intros acc s; cbn [for_each collect].
  - unfold ret; cbn. now rewrite app_nil_r.
  - unfold bind at 1. rewrite Hbody.
    rewrite IH. unfold bind, ret.
    destruct (f x s) as [y s1]; cbn [fst snd].
    destruct (collect f xs s1) as [ys s2]; cbn [fst snd].
    now rewrite <- app_assoc.
Qed.

Lemma collect_Forall2 {A B} (f : A -> M World B) (R : A -> B -> Prop) :
  (forall x s, R x (fst (f x s))) ->
  forall xs s, Forall2 R xs (fst (collect f xs s)).
Proof.
  intros Hf xs.
  induction xs as [|x xs IH]; intros s; cbn [collect].
  - constructor.
  - unfold bind, ret. specialize (Hf x s).
    destruct (f x s) as [y s1]; cbn [fst] in Hf.
    specialize (IH s1).
    destruct (collect f xs s1) as [ys s2]; cbn [fst] in *.
    now constructor.
Qed.

Lemma collect_trace {A B U V} (f : A -> M World B)
    (alpha : Event -> U) (beta : A -> U) (gamma : Event -> V) (delta : B -> V) :
  (forall x s, exists e,
      log (snd (f x s)) = (log s ++ [e])%list /\
      alpha e = beta x /\ gamma e = delta (fst (f x s))) ->
  forall xs s, exists events,
    log (snd (collect f xs s)) = (log s ++ events)%list /\
    map alpha events = map beta xs /\
    map gamma events = map delta (fst (collect f xs s)).
Proof.
  intros Hf xs.
  induction xs as [|x xs IH]; intros s; cbn [collect].
  - exists []. unfold ret; cbn. now rewrite app_nil_r.
  - unfold bind, ret.
    destruct (Hf x s) as (e & Hlog & Ha & Hg).
    destruct (f x s) as [y s1]; cbn [fst snd] in *.
    destruct (IH s1) as (events & Hlog' & Ha' & Hg').
    destruct (collect f xs s1) as [ys s2]; cbn [fst snd] in *.
    exists (e :: events). cbn [map].
    rewrite Hlog', Hlog, <- app_assoc, Ha, Ha', Hg, Hg'. auto.
Qed.

Lemma Forall2_length_eq {A B} (R : A -> B -> Prop) xs ys :
  Forall2 R xs ys -> List.length ys = List.length xs.
Proof. induction 1; cbn; congruence. Qed.

Lemma Forall2_right {A B} (R : A -> B -> Prop) (P : B -> Prop) xs ys :
  (forall x y, R x y -> P y) -> Forall2 R xs ys -> Forall P ys.
Proof. intros HRP; induction 1; constructor; eauto. Qed.

Lemma Forall2_map_eq {A B} (g : B -> A) xs ys :
  Forall2 (fun x y => g y = x) xs ys -> map g ys = xs.
Proof. induction 1; cbn; congruence. Qed.

End Loops.

(** ** Python's [range] *)

Lemma range_length_nonneg start stop step : 0 <= Py.range_length start stop step.
Proof.
  unfold Py.range_length.
  destruct (0 <? step) eqn:Hs.
  - apply Z.ltb_lt in Hs.
    destruct (stop <=? start) eqn:Hc; [lia|].
    apply Z.leb_gt in Hc.
    assert (0 <= (stop - start - 1) / step) by (apply Z.div_pos; lia). lia.
  - destruct (start <=? stop) eqn:Hc; [lia|].
    apply Z.leb_gt in Hc. apply Z.ltb_ge in Hs.
    destruct (Z.eq_dec step 0) as [->|Hne].
    + cbn. rewrite Z.div_0_r. lia.
    + assert (0 <= (start - stop - 1) / - step) by (apply Z.div_pos; lia). lia.
Qed.

Lemma range_windows start end_ step :
  step <> 0 ->
  exists addrs,
    Py.range start end_ step = Py.Returns addrs /\
    windows_of start end_ step addrs.
Proof.
  intros Hstep. unfold Py.range.
  destruct (step =? 0) eqn:E; [apply Z.eqb_eq in E; contradiction|].
  eexists; split; [reflexivity|].
  exists (Z.to_nat (Py.range_length start end_ step)). split; [reflexivity|].
  intros i Hi.
  rewrite Z2Nat.id by apply range_length_nonneg.
  unfold Py.range_length.
  destruct (0 <? step) eqn:Hs.
  - apply Z.ltb_lt in Hs.
    destruct (end_ <=? start) eqn:Hc.
    + apply Z.leb_le in Hc. split; [lia|]. intros Hlt. nia.
    + apply Z.leb_gt in Hc.
      split; intros Hlt.
      * assert (i <= (end_ - start - 1) / step) as Hle by lia.
        assert (step * i <= end_ - start - 1).
        { etransitivity; [apply Z.mul_le_mono_nonneg_l; [lia|exact Hle]|].
          apply Z.mul_div_le; lia. }
        lia.
      * assert (i <= (end_ - start - 1) / step); [|lia].
        apply Z.div_le_lower_bound; lia.
  - apply Z.ltb_ge in Hs. assert (0 < - step) as Hneg by lia.
    destruct (start <=? end_) eqn:Hc.
    + apply Z.leb_le in Hc. split; [lia|]. intros Hlt. nia.
    + apply Z.leb_gt in Hc.
      split; intros Hlt.
      * assert (i <= (start - end_ - 1) / - step) as Hle by lia.
        assert (- step * i <= start - end_ - 1).
        { etransitivity; [apply Z.mul_le_mono_nonneg_l; [lia|exact Hle]|].
          apply Z.mul_div_le; lia. }
        lia.
      * assert (i <= (start - end_ - 1) / - step); [|lia].
        apply Z.div_le_lower_bound; lia.
Qed.

(** ** Status texts *)

Lemma StatusText_tag (t : StatusTag) : StatusText (tag_text t).
Proof.
  destruct t; cbn; unfold StatusText; auto.
  right; right. exists (" " ++ detail). reflexivity.
Qed.

Lemma window_outcome_tag {V} (o : Outcome (Response (list V))) :
  fst (window_outcome o) = tag_text (tag_of o).
Proof. destruct o as [[|p]|msg]; reflexivity. Qed.

Lemma window_outcome_values {V} (o : Outcome (Response (list V))) :
  fst (window_outcome o) <> "OK" -> snd (window_outcome o) = [].
Proof. destruct o as [[|p]|msg]; cbn; congruence. Qed.

Lemma write_outcome_tag (o : Outcome (Response unit)) :
  write_outcome o = tag_text (tag_of o).
Proof. destruct o as [[|p]|msg]; reflexivity. Qed.

(** ** One scan window *)

Section Windows.
Context {World : Type} `{Network World}.

Lemma register_window_ok client ip step reg_type addr (s : State World) :
  window_ok ip reg_type addr
    (fst (Toolkit.register_window client ip step reg_type addr s)).
Proof.
  unfold Toolkit.register_window, bind, ret.
  destruct (String.eqb reg_type "holding");
    [unfold read_holding_registers | unfold read_input_registers];
    unfold call;
    match goal with |- context [?f client addr step (world s)] =>
      destruct (f client addr step (world s)) as [o w] end;
    pose proof (window_outcome_tag o) as Ht;
    pose proof (window_outcome_values o) as Hv;
    destruct (window_outcome o) as [status values]; cbn [fst snd] in *;
    (split; cbn; auto; rewrite Ht; apply StatusText_tag).
Qed.

Lemma register_window_event client ip step reg_type addr (s : State World) :
  exists e,
    log (snd (Toolkit.register_window client ip step reg_type addr s)) =
    (log s ++ [e])%list /\
    event_request e = Some (client, register_request reg_type step addr) /\
    option_map tag_text (event_tag e) =
    Some (Status (fst (Toolkit.register_window client ip step reg_type addr s))).
Proof.
  unfold Toolkit.register_window, register_request, bind, ret.
  destruct (String.eqb reg_type "holding");
    [unfold read_holding_registers | unfold read_input_registers];
    unfold call;
    match goal with |- context [?f client addr step (world s)] =>
      destruct (f client addr step (world s)) as [o w] end;
    pose proof (window_outcome_tag o) as Ht;
    destruct (window_outcome o) as [status values]; cbn [fst snd] in *;
    (eexists; split; [reflexivity|]; cbn; split; congruence).
Qed.

Lemma coil_window_ok client ip step addr (s : State World) :
  window_ok ip "coil" addr (fst (Toolkit.coil_window client ip step addr s)).
Proof.
  unfold Toolkit.coil_window, bind, ret, read_coils, call.
  destruct (net_read_coils client addr step (world s)) as [o w].
  pose proof (window_outcome_tag o) as Ht.
  pose proof (window_outcome_values o) as Hv.
  destruct (window_outcome o) as [status values]; cbn [fst snd] in *.
  split; cbn; auto. rewrite Ht; apply StatusText_tag.
Qed.

Lemma coil_window_event client ip step addr (s : State World) :
  exists e,
    log (snd (Toolkit.coil_window client ip step addr s)) =
    (log s ++ [e])%list /\
    event_request e = Some (client, ReadCoils addr step) /\
    option_map tag_text (event_tag e) =
    Some (Status (fst (Toolkit.coil_window client ip step addr s))).
Proof.
  unfold Toolkit.coil_window, bind, ret, read_coils, call.
  destruct (net_read_coils client addr step (world s)) as [o w].
  pose proof (window_outcome_tag o) as Ht.
  destruct (window_outcome o) as [status values]; cbn [fst snd] in *.
  eexists; split; [reflexivity|]; cbn; split; congruence.
Qed.

(** The sweep over a list of addresses, as [collect] states it. *)
Lemma sweep_collect {V} (window : Z -> M World (ProbeResult V)) addrs
    (s : State World) :
  for_each addrs
    (fun addr results => r <- window addr ;; ret (results ++ [r])%list) [] s =
  collect window addrs s.
Proof.
  rewrite (for_each_collect _ window).
  - cbn. now destruct (collect window addrs s).
  - intros x acc s0. unfold bind, ret. now destruct (window x s0).
Qed.

Lemma sweep_one_per_window {V} (window : Z -> M World (ProbeResult V))
    client (request : Z -> Request) ip type addrs (s : State World) :
  (forall addr s0, window_ok ip type addr (fst (window addr s0))) ->
  (forall addr s0, exists e,
      log (snd (window addr s0)) = (log s0 ++ [e])%list /\
      event_request e = Some (client, request addr) /\
      option_map tag_text (event_tag e) =
      Some (Status (fst (window addr s0)))) ->
  one_per_window client request addrs s
    (snd (collect window addrs s)) (fst (collect window addrs s)) /\
  Forall2 (window_ok ip type) addrs (fst (collect window addrs s)).
Proof.
  intros Hok Hev.
  assert (Forall2 (window_ok ip type) addrs (fst (collect window addrs s)))
    as HF by (apply collect_Forall2; auto).
  split; [|exact HF].
  destruct (collect_trace window event_request
              (fun a => Some (client, request a))
              (fun e => option_map tag_text (event_tag e))
              (fun r => Some (Status r)) Hev addrs s)
    as (events & Hlog & Hreq & Htag).
  exists events. repeat split; auto.
  apply Forall2_map_eq.
  eapply Forall2_impl; [|exact HF].
  intros a r Hr. apply Hr.
Qed.

End Windows.

(** ** The register and coil sweeps *)

Section Sweeps.
Context {World : Type} `{Network World}.

Lemma scan_registers_returns client ip start end_ step reg_type addrs
    (s : State World) :
  Py.range start end_ step = Py.Returns addrs ->
  Toolkit.scan_registers client ip start end_ step reg_type s =
  (Py.Returns
     (fst (collect (Toolkit.register_window client ip step reg_type) addrs s)),
   snd (collect (Toolkit.register_window client ip step reg_type) addrs s)).
Proof.
  intros Hr. unfold Toolkit.scan_registers. rewrite Hr.
  unfold bind at 1. rewrite sweep_collect.
  now destruct (collect _ addrs s).
Qed.

Lemma scan_coils_returns client ip start end_ step addrs (s : State World) :
  Py.range start end_ step = Py.Returns addrs ->
  Toolkit.scan_coils client ip start end_ step s =
  (Py.Returns (fst (collect (Toolkit.coil_window client ip step) addrs s)),
   snd (collect (Toolkit.coil_window client ip step) addrs s)).
Proof.
  intros Hr. unfold Toolkit.scan_coils. rewrite Hr.
  unfold bind at 1. rewrite sweep_collect.
  now destruct (collect _ addrs s).
Qed.

Lemma scan_registers_zero_step client ip start end_ reg_type (s : State World) :
  Toolkit.scan_registers client ip start end_ 0 reg_type s =
  (Py.Throws Py.ValueError, s).
Proof. reflexivity. Qed.

Lemma scan_coils_zero_step client ip start end_ (s : State World) :
  Toolkit.scan_coils client ip start end_ 0 s = (Py.Throws Py.ValueError, s).
Proof. reflexivity. Qed.

Lemma range_cases start end_ step :
  (step = 0 /\ Py.range start end_ step = Py.Throws Py.ValueError) \/
  (step <> 0 /\ exists addrs, Py.range start end_ step = Py.Returns addrs).
Proof.
  destruct (Z.eq_dec step 0) as [->|Hne].
  - left. auto.
  - right. split; [exact Hne|].
    destruct (range_windows start end_ step Hne) as (addrs & Hr & _). eauto.
Qed.

(** What a register scan comes to: with a zero step it raises before any
    request; otherwise it returns one well-formed result per window. *)
Lemma scan_registers_cases client ip start end_ step reg_type (s : State World) :
  match fst (Toolkit.scan_registers client ip start end_ step reg_type s) with
  | Py.Returns results =>
      step <> 0 /\
      exists addrs, Py.range start end_ step = Py.Returns addrs /\
                    Forall2 (window_ok ip reg_type) addrs results
  | Py.Throws e =>
      step = 0 /\ e = Py.ValueError /\
      snd (Toolkit.scan_registers client ip start end_ step reg_type s) = s
  end.
Proof.
  destruct (range_cases start end_ step) as [[-> _]|[Hne (addrs & Hr)]].
  - rewrite scan_registers_zero_step. cbn. auto.
  - rewrite (scan_registers_returns _ _ _ _ _ _ addrs) by exact Hr.
    cbn [fst]. split; [exact Hne|]. exists addrs. split; [exact Hr|].
    apply collect_Forall2. intros; apply register_window_ok.
Qed.

Lemma scan_coils_cases client ip start end_ step (s : State World) :
  match fst (Toolkit.scan_coils client ip start end_ step s) with
  | Py.Returns results =>
      step <> 0 /\
      exists addrs, Py.range start end_ step = Py.Returns addrs /\
                    Forall2 (window_ok ip "coil") addrs results
  | Py.Throws e =>
      step = 0 /\ e = Py.ValueError /\
      snd (Toolkit.scan_coils client ip start end_ step s) = s
  end.
Proof.
  destruct (range_cases start end_ step) as [[-> _]|[Hne (addrs & Hr)]].
  - rewrite scan_coils_zero_step. cbn. auto.
  - rewrite (scan_coils_returns _ _ _ _ _ addrs) by exact Hr.
    cbn [fst]. split; [exact Hne|]. exists addrs. split; [exact Hr|].
    apply collect_Forall2. intros; apply coil_window_ok.
Qed.

End Sweeps.

(** C8, as corrected.  For every start, end and non-zero step, the register
    sweep returns; it issues exactly one read per window of the progression
    start, start + step, ... cut at end, each read asking for [step]
    registers at the window's address, and it returns one result per window
    in scan order, each with the status of its read, whatever the reads
    answer (a protocol error or an exception at one window does not stop the
    sweep).  The coil sweep does the same with coil reads. *)
Theorem C8_sweep_one_read_per_window :
  forall (World : Type) (net : Network World) client ip start end_ step
         reg_type (s : State World),
    step <> 0 ->
    exists addrs,
      windows_of start end_ step addrs /\
      (exists results s',
          Toolkit.scan_registers client ip start end_ step reg_type s =
          (Py.Returns results, s') /\
          one_per_window client (register_request reg_type step) addrs
            s s' results) /\
      (exists results s',
          Toolkit.scan_coils client ip start end_ step s =
          (Py.Returns results, s') /\
          one_per_window client (fun a => ReadCoils a step) addrs
            s s' results).
Proof.
  intros World net client ip start end_ step reg_type s Hstep.
  destruct (range_windows start end_ step Hstep) as (addrs & Hr & Hw).
  exists addrs. split; [exact Hw|]. split.
  - eexists _, _. split; [apply scan_registers_returns; exact Hr|].
    apply (sweep_one_per_window _ client _ ip reg_type).
    + intros; apply register_window_ok.
    + intros; apply register_window_event.
  - eexists _, _. split; [apply scan_coils_returns; exact Hr|].
    apply (sweep_one_per_window _ client _ ip "coil").
    + intros; apply coil_window_ok.
    + intros; apply coil_window_event.
Qed.

(** C10.  In the results of a register scan and of a coil scan, a window
    whose status is not OK has the empty list as its values; the scans
    return such results for every non-zero step. *)
Theorem C10_failed_window_has_no_values :
  forall (World : Type) (net : Network World) client ip start end_ step
         reg_type (s : State World),
    match fst (Toolkit.scan_registers client ip start end_ step reg_type s) with
    | Py.Returns results =>
        Forall (fun r => Status r <> "OK" -> Values r = []) results
    | Py.Throws _ => step = 0
    end /\
    match fst (Toolkit.scan_coils client ip start end_ step s) with
    | Py.Returns results =>
        Forall (fun r => Status r <> "OK" -> Values r = []) results
    | Py.Throws _ => step = 0
    end.
Proof.
  intros World net client ip start end_ step reg_type s. split.
  - pose proof (scan_registers_cases client ip start end_ step reg_type s) as Hc.
    destruct (fst (Toolkit.scan_registers _ _ _ _ _ _ _)) as [results|e].
    + destruct Hc as (_ & addrs & _ & HF).
      eapply Forall2_right; [|exact HF].
      intros a r Hr. apply Hr.
    + apply Hc.
  - pose proof (scan_coils_cases client ip start end_ step s) as Hc.
    destruct (fst (Toolkit.scan_coils _ _ _ _ _ _)) as [results|e].
    + destruct Hc as (_ & addrs & _ & HF).
      eapply Forall2_right; [|exact HF].
      intros a r Hr. apply Hr.
    + apply Hc.
Qed.

(** ** The fuzzer *)

Section Fuzzer.
Context {World : Type} `{Network World}.

Lemma randint_spec a b (s : State World) :
  a <= b ->
  a <= fst (randint a b s) <= b /\ log (snd (randint a b s)) = log s.
Proof.
  intros Hab. unfold randint.
  destruct (random_source (world s)) as [r w]; cbn.
  assert (0 <= r mod (b - a + 1) < b - a + 1) by (apply Z.mod_pos_bound; lia).
  split; [lia|reflexivity].
Qed.

Lemma random_values_collect count (s : State World) :
  Toolkit.random_values count s =
  collect (fun _ : Z => randint 0 65535) (Py.range1 count) s.
Proof.
  unfold Toolkit.random_values.
  rewrite (for_each_collect _ (fun _ : Z => randint 0 65535)).
  - cbn. now destruct (collect _ (Py.range1 count) s).
  - intros x acc s0. unfold bind, ret. now destruct (randint 0 65535 s0).
Qed.

Lemma collect_silent {A B} (f : A -> M World B) :
  (forall x s, log (snd (f x s)) = log s) ->
  forall xs s, log (snd (collect f xs s)) = log s.
Proof.
  intros Hf xs. induction xs as [|x xs IH]; intros s; cbn [collect].
  - reflexivity.
  - unfold bind, ret. specialize (Hf x s).
    destruct (f x s) as [y s1]; cbn [snd] in Hf.
    specialize (IH s1).
    destruct (collect f xs s1) as [ys s2]; cbn [snd] in *. congruence.
Qed.

Lemma range1_length n : List.length (Py.range1 n) = Z.to_nat n.
Proof. unfold Py.range1. now rewrite length_map, length_seq. Qed.

Lemma random_values_spec count (s : State World) :
  List.length (fst (Toolkit.random_values count s)) = Z.to_nat count /\
  Forall (fun v => 0 <= v <= 65535) (fst (Toolkit.random_values count s)) /\
  log (snd (Toolkit.random_values count s)) = log s.
Proof.
  rewrite random_values_collect.
  assert (Forall2 (fun (_ : Z) v => 0 <= v <= 65535) (Py.range1 count)
            (fst (collect (fun _ : Z => randint 0 65535) (Py.range1 count) s)))
    as HF.
  { apply collect_Forall2. intros x s0. apply randint_spec. lia. }
  split; [|split].
  - rewrite (Forall2_length_eq _ _ _ HF). apply range1_length.
  - eapply Forall2_right; [|exact HF]. auto.
  - apply collect_silent. intros x s0. apply randint_spec. lia.
Qed.

(** One round: the record it appends and the single write it issues. *)
Lemma fuzz_round_spec client ip count (s : State World) :
  let r := fst (Toolkit.fuzz_round client ip count s) in
  (Host r = ip /\ Type_ r = "fuzz_register" /\ 0 <= Address r <= 120 /\
   List.length (Values r) = Z.to_nat count /\
   Forall (fun v => 0 <= v <= 65535) (Values r) /\
   StatusText (Status r)) /\
  exists e,
    log (snd (Toolkit.fuzz_round client ip count s)) = (log s ++ [e])%list /\
    event_request e =
      Some (client, WriteRegisters (Address r) (Values r)) /\
    option_map tag_text (event_tag e) = Some (Status r) /\
    ((forall c a vs w,
         fst (net_write_registers c a vs w) = Returned ErrorResponse) ->
     Status r = "Error").
Proof.
  unfold Toolkit.fuzz_round, bind, ret.
  pose proof (randint_spec 0 120 s ltac:(lia)) as [Haddr Hlog0].
  destruct (randint 0 120 s) as [addr s1]; cbn [fst snd] in *.
  pose proof (random_values_spec count s1) as (Hlen & Hvals & Hlog1).
  destruct (Toolkit.random_values count s1) as [values s2]; cbn [fst snd] in *.
  unfold write_registers, call.
  destruct (net_write_registers client addr values (world s2)) as [o w] eqn:Ew.
  cbn [fst snd log Host Type_ Address Values Status].
  split.
  - repeat split; auto; try lia.
    rewrite write_outcome_tag. apply StatusText_tag.
  - eexists. split; [rewrite Hlog1, Hlog0; reflexivity|].
    cbn. rewrite write_outcome_tag. repeat split.
    intros Hall. specialize (Hall client addr values (world s2)).
    rewrite Ew in Hall. cbn in Hall. now subst o.
Qed.

Lemma fuzz_registers_collect client ip count iterations (s : State World) :
  Toolkit.fuzz_registers client ip count iterations s =
  collect (fun _ : Z => Toolkit.fuzz_round client ip count)
          (Py.range1 iterations) s.
Proof.
  unfold Toolkit.fuzz_registers.
  rewrite (for_each_collect _ (fun _ : Z => Toolkit.fuzz_round client ip count)).
  - cbn. now destruct (collect _ (Py.range1 iterations) s).
  - intros x acc s0. unfold bind, ret.
    now destruct (Toolkit.fuzz_round client ip count s0).
Qed.

End Fuzzer.

Lemma fuzz_registers_rounds {World : Type} `{Network World}
    client ip count iterations (s : State World) :
  Forall2 (fun (_ : Z) r =>
             Type_ r = "fuzz_register" /\ 0 <= Address r <= 120 /\
             Z.of_nat (List.length (Values r)) = Z.max 0 count /\
             Forall (fun v => 0 <= v <= 65535) (Values r) /\
             StatusText (Status r))
          (Py.range1 iterations)
          (fst (Toolkit.fuzz_registers client ip count iterations s)).
Proof.
  rewrite fuzz_registers_collect.
  apply collect_Forall2. intros x s0.
  destruct (fuzz_round_spec client ip count s0)
    as ((_ & Ht & Ha & Hl & Hv & Hs) & _).
  split; [exact Ht|]. split; [exact Ha|]. split; [|split; assumption].
  rewrite Hl. lia.
Qed.

Lemma map_pair_eq {A B U V} (f : A -> U) (g : A -> V) (h : B -> U) (k : B -> V)
    (l : list A) (l' : list B) :
  map (fun a => (f a, g a)) l = map (fun b => (h b, k b)) l' ->
  map f l = map h l' /\ map g l = map k l'.
Proof.
  revert l'. induction l as [|a l IH]; intros [|b l'] Heq; cbn in *;
    try discriminate; auto.
  injection Heq as H1 H2 H3. destruct (IH _ H3). split; congruence.
Qed.

(** C9.  For every count and iterations, the fuzzer produces exactly
    [iterations] results (none for a negative number), each of type
    fuzz_register, with a start address in [0, 120], [count] values all in
    [0, 65535], and the status of the one write it issued with that
    address and those values; with count 3 and iterations 1 against a
    target that always answers a protocol error it produces exactly one
    result, of status Error, with 3 values. *)
Theorem C9_fuzz_registers :
  forall (World : Type) (net : Network World) client ip count iterations
         (s : State World),
    Z.of_nat (List.length
                (fst (Toolkit.fuzz_registers client ip count iterations s))) =
    Z.max 0 iterations /\
    Forall (fun r =>
              Type_ r = "fuzz_register" /\ 0 <= Address r <= 120 /\
              Z.of_nat (List.length (Values r)) = Z.max 0 count /\
              Forall (fun v => 0 <= v <= 65535) (Values r) /\
              StatusText (Status r))
           (fst (Toolkit.fuzz_registers client ip count iterations s)) /\
    (exists events,
        log (snd (Toolkit.fuzz_registers client ip count iterations s)) =
        (log s ++ events)%list /\
        map event_request events =
        map (fun r => Some (client, WriteRegisters (Address r) (Values r)))
            (fst (Toolkit.fuzz_registers client ip count iterations s)) /\
        map (fun e => option_map tag_text (event_tag e)) events =
        map (fun r => Some (Status r))
            (fst (Toolkit.fuzz_registers client ip count iterations s))) /\
    ((forall c a vs w,
         fst (net_write_registers c a vs w) = Returned ErrorResponse) ->
     count = 3 -> iterations = 1 ->
     exists r,
       fst (Toolkit.fuzz_registers client ip count iterations s) = [r] /\
       Type_ r = "fuzz_register" /\ Status r = "Error" /\
       List.length (Values r) = 3%nat).
Proof.
  intros World net client ip count iterations s.
  pose proof (fuzz_registers_rounds client ip count iterations s) as HF.
  rewrite fuzz_registers_collect in *.
  set (round := fun _ : Z => Toolkit.fuzz_round client ip count) in *.
  split; [|split; [|split]].
  - rewrite (Forall2_length_eq _ _ _ HF), range1_length. lia.
  - eapply Forall2_right; [|exact HF]. auto.
  - destruct (collect_trace round (fun _ => tt) (fun _ => tt)
                (fun e => (event_request e, option_map tag_text (event_tag e)))
                (fun r => (Some (client, WriteRegisters (Address r) (Values r)),
                           Some (Status r)))) with (xs := Py.range1 iterations)
                                                   (s := s)
      as (events & Hlog & _ & Hmap).
    { intros x s0.
      destruct (fuzz_round_spec client ip count s0)
        as (_ & e & Hlog & Hreq & Htag & _).
      exists e. unfold round. rewrite Hlog, Hreq, Htag. auto. }
    exists events. split; [exact Hlog|].
    apply map_pair_eq in Hmap. exact Hmap.
  - intros Herr -> ->.
    change (Py.range1 1) with [0]. cbn [collect]. unfold bind, ret, round.
    destruct (fuzz_round_spec client ip 3 s)
      as ((_ & Ht & _ & Hl & _) & e & _ & _ & _ & Hstatus).
    destruct (Toolkit.fuzz_round client ip 3 s) as [r s1]; cbn [fst snd] in *.
    exists r. repeat split; auto.
Qed.

(** ** Dicts and hexadecimal text *)

Lemma getitem_setitem_other {V} (k k' : string) (v : V) (d : Py.dict V) :
  k <> k' -> Py.getitem k (Py.setitem k' v d) = Py.getitem k d.
Proof.
  intros Hne. induction d as [|[k0 v0] d IH]; cbn.
  - destruct (String.eqb_spec k k'); congruence.
  - destruct (String.eqb_spec k' k0) as [->|Hk]; cbn.
    + destruct (String.eqb_spec k k0); congruence.
    + destruct (String.eqb_spec k k0); congruence.
Qed.

Lemma keys_setitem_in {V} (k k' : string) (v : V) (d : Py.dict V) :
  In k (Py.keys d) -> In k (Py.keys (Py.setitem k' v d)).
Proof.
  induction d as [|[k0 v0] d IH]; cbn; [tauto|].
  destruct (String.eqb_spec k' k0) as [->|Hk]; cbn; intros [Hk0|Hin]; auto.
Qed.

(** A key that does not start with [device_] is untouched by the fields of
    the device-identification response. *)
Lemma getitem_add_device_fields k information info :
  String.prefix "device_" k = false ->
  Py.getitem k (add_device_fields information info) = Py.getitem k info.
Proof.
  intros Hk. unfold add_device_fields. revert info.
  induction information as [|[obj_id value] rest IH]; intros info; cbn.
  - reflexivity.
  - rewrite IH. apply getitem_setitem_other.
    intros ->. cbn in Hk.
    destruct (Py.str_of_int obj_id); discriminate.
Qed.

Lemma hex_digit_is_hex n : (n < 16)%N -> is_hex_char (Py.hex_digit n) = true.
Proof.
  intros Hn.
  assert (Hcases : In n (map N.of_nat (seq 0 16))).
  { replace n with (N.of_nat (N.to_nat n)) by apply N2Nat.id.
    apply in_map, in_seq. lia. }
  cbn in Hcases.
  repeat (destruct Hcases as [<-|Hcases]; [reflexivity|]). contradiction.
Qed.

Lemma hex_is_hex_string data : is_hex_string (Py.hex data) = true.
Proof.
  induction data as [|b data IH]; cbn; [reflexivity|].
  assert (Byte.to_N b < 256)%N as Hb
    by (pose proof (Byte.to_N_bounded b); lia).
  rewrite !hex_digit_is_hex, IH; [reflexivity| |].
  - apply N.mod_lt. lia.
  - apply N.Div0.div_lt_upper_bound. lia.
Qed.

(** ** The banner probe and the fallback fingerprint *)

Section Fingerprint.
Context {World : Type} `{Network World}.

(** The banner probe never raises; it sends at most one frame, always
    [banner_request], asks for at most 1024 bytes, and returns [None] or the
    hexadecimal text of what it received. *)
Lemma banner_grab_spec ip port (s : State World) :
  (match fst (Toolkit.banner_grab ip port s) with
   | None => True
   | Some b => exists data,
       b = Py.hex data /\ (List.length data <= 1024)%nat
   end) /\
  exists events,
    log (snd (Toolkit.banner_grab ip port s)) = (log s ++ events)%list /\
    (sent_frames events = [] \/
     sent_frames events = [Toolkit.banner_request]) /\
    (recv_sizes events = [] \/ recv_sizes events = [1024]).
Proof.
  unfold Toolkit.banner_grab, bind, ret, create_connection, send, recv,
    close_socket, call.
  destruct (sock_create_connection ip port (world s)) as [[u|msg] w1];
    cbn [fst snd world log].
  2:{ split; [exact I|]. eexists. split; [reflexivity|]. cbn. auto. }
  destruct (sock_send Toolkit.banner_request w1) as [[u2|msg] w2];
    cbn [fst snd world log].
  2:{ split; [exact I|]. eexists.
      split; [rewrite <- app_assoc; reflexivity|]. cbn. auto. }
  destruct (sock_recv w2) as [[data|msg] w3]; cbn [fst snd world log].
  2:{ split; [exact I|]. eexists.
      split; [rewrite <- !app_assoc; reflexivity|]. cbn. auto. }
  destruct (sock_close w3) as [[u4|msg] w4]; cbn [fst snd world log].
  2:{ split; [exact I|]. eexists.
      split; [rewrite <- !app_assoc; reflexivity|]. cbn. auto. }
  split.
  - eexists. split; [reflexivity|].
    rewrite length_firstn. change (Z.to_nat 1024) with 1024%nat. lia.
  - eexists. split; [rewrite <- !app_assoc; reflexivity|]. cbn. auto.
Qed.

Lemma fallback_fingerprint_spec client ip (s : State World) :
  exists patterns b s',
    Toolkit.fallback_fingerprint client ip s =
    (Py.Returns [("Host", FStr ip);
                 ("Type", FStr "fallback_fingerprint");
                 ("Status", FStr "OK");
                 ("Banner", FStr b);
                 ("RegisterSample", FRepr patterns)], s') /\
    Forall2 (window_ok ip "holding") [0; 2; 4; 6; 8] patterns /\
    banner_text b.
Proof.
  unfold Toolkit.fallback_fingerprint. unfold bind at 1.
  rewrite (scan_registers_returns client ip 0 10 2 "holding" [0; 2; 4; 6; 8])
    by reflexivity.
  set (swept := collect _ _ s).
  assert (Forall2 (window_ok ip "holding") [0; 2; 4; 6; 8] (fst swept)) as HF
    by (apply collect_Forall2; intros; apply register_window_ok).
  unfold bind, ret.
  pose proof (banner_grab_spec ip 502 (snd swept)) as (Hb & _).
  destruct (Toolkit.banner_grab ip 502 (snd swept)) as [banner s2];
    cbn [fst snd] in *.
  eexists _, _, _. split; [reflexivity|]. split; [exact HF|].
  unfold banner_text.
  destruct banner as [b|]; [|now left].
  destruct Hb as (data & -> & _).
  destruct (Py.truthy (Py.hex data)) eqn:Ht; [|now left].
  right. split; [|apply hex_is_hex_string].
  intros Hempty. rewrite Hempty in Ht. discriminate.
Qed.

End Fingerprint.

(** ** Fingerprinting *)

Section FingerprintDevice.
Context {World : Type} `{Network World}.

Lemma toolkit_fingerprint_cases client ip (s : State World) :
  match fst (net_read_device_information client (world s)) with
  | Returned (Normal information) =>
      fst (Toolkit.fingerprint_device client ip s) =
      Py.Returns (add_device_fields information
                    [("Host", FStr ip); ("Type", FStr "device_info");
                     ("Status", FStr "OK")])
  | _ =>
      exists patterns b,
        fst (Toolkit.fingerprint_device client ip s) =
        Py.Returns [("Host", FStr ip);
                    ("Type", FStr "fallback_fingerprint");
                    ("Status", FStr "OK");
                    ("Banner", FStr b);
                    ("RegisterSample", FRepr patterns)] /\
        Forall2 (window_ok ip "holding") [0; 2; 4; 6; 8] patterns /\
        banner_text b
  end.
Proof.
  unfold Toolkit.fingerprint_device, bind, read_device_information, call.
  destruct (net_read_device_information client (world s))
    as [[[|information]|msg] w]; cbn [fst snd].
  - match goal with |- context [Toolkit.fallback_fingerprint client ip ?s1] =>
      destruct (fallback_fingerprint_spec client ip s1)
        as (patterns & b & s' & -> & HF & Hb) end.
    exists patterns, b. auto.
  - reflexivity.
  - match goal with |- context [Toolkit.fallback_fingerprint client ip ?s1] =>
      destruct (fallback_fingerprint_spec client ip s1)
        as (patterns & b & s' & -> & HF & Hb) end.
    exists patterns, b. auto.
Qed.

Lemma recon_fingerprint_cases client ip port (s : State World) :
  match fst (net_read_device_information client (world s)) with
  | Returned (Normal information) =>
      fst (Recon.fingerprint_device client ip port s) =
      Some (Py.setitem "Vendor" (FStr (Recon.identify_vendor information))
              (add_device_fields information
                 [("Host", FStr ip); ("Port", FInt port);
                  ("Type", FStr "device_info"); ("Status", FStr "OK")]))
  | Returned ErrorResponse =>
      fst (Recon.fingerprint_device client ip port s) = None
  | Raised e =>
      fst (Recon.fingerprint_device client ip port s) =
      Some [("Host", FStr ip); ("Port", FInt port);
            ("Type", FStr "device_info");
            ("Status", FStr ("Exception: " ++ e))]
  end.
Proof.
  unfold Recon.fingerprint_device, bind, ret, read_device_information, call.
  now destruct (net_read_device_information client (world s))
    as [[[|information]|msg] w].
Qed.

End FingerprintDevice.

(** C1, as corrected.  In modbus_toolkit.py the fingerprint of a target is a
    record whose type is fallback_fingerprint if and only if the
    device-identification request failed (an error response or an
    exception), and device_info otherwise; every fallback record has status
    OK, a register sample of five windows and a banner that is non-empty
    hexadecimal text or the marker None.  In modbusrecon_toolkit.py there is
    no fallback: a protocol error gives no record, an exception gives a
    device_info record of status Exception: <text>, and a normal response a
    device_info record of status OK. *)
Theorem C1_fallback_iff_request_failed :
  forall (World : Type) (net : Network World) client ip port (s : State World),
    (exists record,
        fst (Toolkit.fingerprint_device client ip s) = Py.Returns record /\
        (Py.getitem "Type" record = Some (FStr "fallback_fingerprint") <->
         request_failed
           (fst (net_read_device_information client (world s))) = true) /\
        (Py.getitem "Type" record = Some (FStr "device_info") <->
         request_failed
           (fst (net_read_device_information client (world s))) = false) /\
        (Py.getitem "Type" record = Some (FStr "fallback_fingerprint") ->
         Py.getitem "Status" record = Some (FStr "OK") /\
         (exists patterns,
             Py.getitem "RegisterSample" record = Some (FRepr patterns) /\
             List.length patterns = 5%nat) /\
         (exists b,
             Py.getitem "Banner" record = Some (FStr b) /\ banner_text b))) /\
    match fst (net_read_device_information client (world s)) with
    | Returned (Normal _) =>
        exists record,
          fst (Recon.fingerprint_device client ip port s) = Some record /\
          Py.getitem "Type" record = Some (FStr "device_info") /\
          Py.getitem "Status" record = Some (FStr "OK")
    | Returned ErrorResponse =>
        fst (Recon.fingerprint_device client ip port s) = None
    | Raised e =>
        exists record,
          fst (Recon.fingerprint_device client ip port s) = Some record /\
          Py.getitem "Type" record = Some (FStr "device_info") /\
          Py.getitem "Status" record = Some (FStr ("Exception: " ++ e))
    end.
Proof.
  intros World net client ip port s.
  pose proof (toolkit_fingerprint_cases client ip s) as HT.
  pose proof (recon_fingerprint_cases client ip port s) as HR.
  destruct (fst (net_read_device_information client (world s)))
    as [[|information]|msg]; cbn [request_failed].
  - destruct HT as (patterns & b & -> & HF & Hb). split; [|exact HR].
    eexists. split; [reflexivity|]. cbn.
    repeat split; try congruence; try discriminate.
    + exists patterns. split; [reflexivity|].
      now rewrite (Forall2_length_eq _ _ _ HF).
    + exists b. auto.
  - split.
    + eexists. split; [exact HT|].
      rewrite !getitem_add_device_fields by reflexivity. cbn.
      repeat split; try congruence; try discriminate.
    + eexists. split; [exact HR|].
      rewrite !getitem_setitem_other by discriminate.
      rewrite !getitem_add_device_fields by reflexivity. cbn. auto.
  - destruct HT as (patterns & b & -> & HF & Hb). split.
    + eexists. split; [reflexivity|]. cbn.
      repeat split; try congruence; try discriminate.
      * exists patterns. split; [reflexivity|].
        now rewrite (Forall2_length_eq _ _ _ HF).
      * exists b. auto.
    + eexists. split; [exact HR|]. cbn. auto.
Qed.

(** C1, the claim as stated fails.  In modbusrecon_toolkit.py a
    device-identification request that raises gives a record of type
    device_info, and one answered by a protocol error gives no record. *)
Lemma C1_recon_has_no_fallback :
  request_failed
    (fst (net_read_device_information (World := Scripted.World)
            (mkClient "10.0.0.5" 502) [Scripted.Fails "timed out"])) = true /\
  fst (Scripted.run
         (Recon.fingerprint_device (mkClient "10.0.0.5" 502) "10.0.0.5" 502)
         [Scripted.Fails "timed out"]) =
  Some [("Host", FStr "10.0.0.5"); ("Port", FInt 502);
        ("Type", FStr "device_info");
        ("Status", FStr "Exception: timed out")] /\
  fst (Scripted.run
         (Recon.fingerprint_device (mkClient "10.0.0.5" 502) "10.0.0.5" 502)
         [Scripted.Refuses]) = None.
Proof. repeat split. Qed.

(** ** Vendor identification *)

Lemma scan_signatures_first table v :
  Recon.scan_signatures table v =
  option_map snd (find (fun '(sig, _) => Recon.signature_in sig v) table).
Proof.
  induction table as [|[sig label] rest IH]; cbn; [reflexivity|].
  now destruct (Recon.signature_in sig v).
Qed.

Lemma first_label_none v :
  first_label_in v = None <-> no_signature_in v = true.
Proof.
  unfold first_label_in, no_signature_in.
  induction Recon.DEVICE_SIGNATURES as [|[sig label] rest IH]; cbn.
  - tauto.
  - destruct (Recon.signature_in sig v); cbn; [split; discriminate|exact IH].
Qed.

Lemma first_label_only_siemens v :
  only_siemens_in v = true ->
  first_label_in v =
  if Recon.signature_in "Siemens" v then Some "Siemens S7" else None.
Proof.
  unfold only_siemens_in, first_label_in, Recon.DEVICE_SIGNATURES.
  cbn -[Recon.signature_in]. intros Hall.
  repeat match type of Hall with
         | (_ && _ = true) =>
             apply andb_true_iff in Hall; destruct Hall as [? Hall]
         end.
  repeat match goal with
         | Hx : negb ?b = true |- _ => apply negb_true_iff in Hx; rewrite Hx
         end.
  now destruct (Recon.signature_in "Siemens" v).
Qed.

(** C2, as corrected.  Vendor identification walks the values in field
    order and returns the label that the first value containing any
    signature selects, namely the label of the first signature, in table
    order, that this value contains (case-insensitively); it returns
    Unknown Device when no value contains a signature, and Siemens S7, in
    any field order, when some value contains Siemens and no value contains
    another signature. *)
Theorem C2_identify_vendor_field_order_first :
  forall info : list (Z * string),
    Recon.identify_vendor info =
    match find (fun '(_, v) => negb (no_signature_in v)) info with
    | Some (_, v) =>
        match first_label_in v with
        | Some label => label
        | None => "Unknown Device"
        end
    | None => "Unknown Device"
    end /\
    (forallb (fun '(_, v) => no_signature_in v) info = true ->
     Recon.identify_vendor info = "Unknown Device") /\
    (existsb (fun '(_, v) => Recon.signature_in "Siemens" v) info = true ->
     forallb (fun '(_, v) => only_siemens_in v) info = true ->
     Recon.identify_vendor info = "Siemens S7").
Proof.
  intros info. split; [|split].
  - induction info as [|[k v] rest IH];
      cbn [Recon.identify_vendor find forallb existsb]; [reflexivity|].
    rewrite scan_signatures_first. fold (first_label_in v).
    destruct (first_label_in v) as [label|] eqn:Hl.
    + destruct (no_signature_in v) eqn:Hn; cbn.
      * apply first_label_none in Hn. congruence.
      * now rewrite Hl.
    + apply first_label_none in Hl. rewrite Hl. cbn [negb]. exact IH.
  - induction info as [|[k v] rest IH];
      cbn [Recon.identify_vendor find forallb existsb]; [reflexivity|].
    intros Hall. apply andb_true_iff in Hall as [Hv Hrest].
    rewrite scan_signatures_first. fold (first_label_in v).
    apply first_label_none in Hv. rewrite Hv. auto.
  - induction info as [|[k v] rest IH];
      cbn [Recon.identify_vendor find forallb existsb]; [discriminate|].
    intros Hex Hall. apply andb_true_iff in Hall as [Hv Hrest].
    rewrite scan_signatures_first. fold (first_label_in v).
    rewrite (first_label_only_siemens v Hv).
    destruct (Recon.signature_in "Siemens" v); cbn [orb] in *; auto.
Qed.

(** The claim as stated fails: with Siemens in the first field and Schneider
    Electric in the second, the code answers Siemens S7, while the first
    signature in table order that some value contains is Schneider
    Electric. *)
Lemma C2_table_order_counterexample :
  Recon.identify_vendor [(0, "Siemens"); (1, "Schneider Electric")] =
  "Siemens S7" /\
  Spec.vendor_by_table_order [(0, "Siemens"); (1, "Schneider Electric")] =
  "Schneider PLC" /\
  Recon.identify_vendor [(0, "Schneider Electric"); (1, "siemens s7-300")] =
  "Schneider PLC".
Proof. repeat split. Qed.

(** The corrected statement at a concrete mapping. *)
Lemma C2_identify_vendor_witness :
  Recon.identify_vendor [(1, "S7-1200"); (0, "SIEMENS AG")] = "Siemens S7".
Proof.
  apply (C2_identify_vendor_field_order_first
           [(1, "S7-1200"); (0, "SIEMENS AG")]); reflexivity.
Defined.

(** ** Statuses *)

(** C3, as corrected.  Whatever the devices answer: a register scan and a
    coil scan with a non-zero step return results whose status is OK, Error
    or Exception:<text>, and with a zero step they raise ValueError before
    any request; the fuzzer returns results with such a status; the
    fingerprint of modbus_toolkit.py returns a record with such a status;
    the fingerprint of modbusrecon_toolkit.py returns a record with such a
    status, or no record at all when the device-identification request is
    answered by a protocol error. *)
Theorem C3_every_status_is_a_status_tag :
  forall (World : Type) (net : Network World) client ip port start end_ step
         reg_type count iterations (s : State World),
    match fst (Toolkit.scan_registers client ip start end_ step reg_type s) with
    | Py.Returns results =>
        step <> 0 /\ Forall (fun r => StatusText (Status r)) results
    | Py.Throws e =>
        step = 0 /\ e = Py.ValueError /\
        snd (Toolkit.scan_registers client ip start end_ step reg_type s) = s
    end /\
    match fst (Toolkit.scan_coils client ip start end_ step s) with
    | Py.Returns results =>
        step <> 0 /\ Forall (fun r => StatusText (Status r)) results
    | Py.Throws e =>
        step = 0 /\ e = Py.ValueError /\
        snd (Toolkit.scan_coils client ip start end_ step s) = s
    end /\
    Forall (fun r => StatusText (Status r))
           (fst (Toolkit.fuzz_registers client ip count iterations s)) /\
    (exists record status,
        fst (Toolkit.fingerprint_device client ip s) = Py.Returns record /\
        Py.getitem "Status" record = Some (FStr status) /\
        StatusText status) /\
    match fst (Recon.fingerprint_device client ip port s) with
    | Some record =>
        exists status,
          Py.getitem "Status" record = Some (FStr status) /\
          StatusText status
    | None =>
        fst (net_read_device_information client (world s)) =
        Returned ErrorResponse
    end.
Proof.
  intros World net client ip port start end_ step reg_type count iterations s.
  split; [|split; [|split; [|split]]].
  - pose proof (scan_registers_cases client ip start end_ step reg_type s) as Hc.
    destruct (fst (Toolkit.scan_registers _ _ _ _ _ _ _)) as [results|e];
      [|exact Hc].
    destruct Hc as (Hne & addrs & _ & HF). split; [exact Hne|].
    eapply Forall2_right; [|exact HF]. intros a r Hr. apply Hr.
  - pose proof (scan_coils_cases client ip start end_ step s) as Hc.
    destruct (fst (Toolkit.scan_coils _ _ _ _ _ _)) as [results|e];
      [|exact Hc].
    destruct Hc as (Hne & addrs & _ & HF). split; [exact Hne|].
    eapply Forall2_right; [|exact HF]. intros a r Hr. apply Hr.
  - eapply Forall2_right;
      [|exact (fuzz_registers_rounds client ip count iterations s)].
    intros x r Hr. apply Hr.
  - pose proof (toolkit_fingerprint_cases client ip s) as HT.
    destruct (fst (net_read_device_information client (world s)))
      as [[|information]|msg].
    + destruct HT as (patterns & b & -> & _).
      eexists _, "OK". repeat split. now left.
    + eexists _, "OK". split; [exact HT|].
      rewrite getitem_add_device_fields by reflexivity.
      split; [reflexivity|now left].
    + destruct HT as (patterns & b & -> & _).
      eexists _, "OK". repeat split. now left.
  - pose proof (recon_fingerprint_cases client ip port s) as HR.
    destruct (fst (net_read_device_information client (world s)))
      as [[|information]|msg]; rewrite HR.
    + reflexivity.
    + exists "OK".
      rewrite getitem_setitem_other by discriminate.
      rewrite getitem_add_device_fields by reflexivity.
      split; [reflexivity|now left].
    + exists ("Exception: " ++ msg). split; [reflexivity|].
      apply (StatusText_tag (Exception msg)).
Qed.

(** The claim as stated fails: a coil scan called with step 0 raises
    ValueError out of the scan, and the fingerprint of
    modbusrecon_toolkit.py on a protocol error yields no record, hence no
    status. *)
Lemma C3_scan_raises_on_zero_step :
  fst (Scripted.run
         (Toolkit.scan_coils (mkClient "10.0.0.5" 502) "10.0.0.5" 0 100 0)
         [Scripted.Bits [true]]) = Py.Throws Py.ValueError /\
  fst (Scripted.run
         (Recon.fingerprint_device (mkClient "10.0.0.5" 502) "10.0.0.5" 502)
         [Scripted.Refuses]) = None.
Proof. split; reflexivity. Qed.

(** The claim as stated fails: a register sweep with step 0 returns no
    sequence of results; it raises ValueError and issues no read. *)
Lemma C8_zero_step_counterexample :
  Scripted.run
    (Toolkit.scan_registers (mkClient "10.0.0.5" 502) "10.0.0.5" 0 100 0
       "holding")
    [Scripted.Registers [1; 2]] = (Py.Throws Py.ValueError, []).
Proof. reflexivity. Qed.

(** The corrected sweep statement at start 0, end 10, step 2. *)
Lemma C8_sweep_witness :
  2 <> 0 /\
  exists addrs,
    windows_of 0 10 2 addrs /\
    (exists results s',
        Toolkit.scan_registers (mkClient "10.0.0.5" 502) "10.0.0.5" 0 10 2
          "holding" (mkState ([] : Scripted.World) []) =
        (Py.Returns results, s') /\
        one_per_window (mkClient "10.0.0.5" 502)
          (register_request "holding" 2) addrs
          (mkState ([] : Scripted.World) []) s' results) /\
    (exists results s',
        Toolkit.scan_coils (mkClient "10.0.0.5" 502) "10.0.0.5" 0 10 2
          (mkState ([] : Scripted.World) []) =
        (Py.Returns results, s') /\
        one_per_window (mkClient "10.0.0.5" 502)
          (fun a => ReadCoils a 2) addrs
          (mkState ([] : Scripted.World) []) s' results).
Proof.
  split; [lia|].
  apply (C8_sweep_one_read_per_window Scripted.World Scripted.network
           (mkClient "10.0.0.5" 502) "10.0.0.5" 0 10 2 "holding"
           (mkState [] [])).
  lia.
Defined.

(** The fuzzer statement at count 3, one iteration, against a device that
    refuses every write. *)
Lemma C9_fuzz_witness :
  exists r,
    fst (Toolkit.fuzz_registers (mkClient "10.0.0.5" 502) "10.0.0.5" 3 1
           (mkState ([70; 1; 65536; 9] : Refusing.World) [])) = [r] /\
    Type_ r = "fuzz_register" /\ Status r = "Error" /\
    List.length (Values r) = 3%nat.
Proof.
  apply (C9_fuzz_registers Refusing.World Refusing.network
           (mkClient "10.0.0.5" 502) "10.0.0.5" 3 1
           (mkState [70; 1; 65536; 9] [])); reflexivity.
Defined.

(** ** Address-space expansion *)

Section Hosts.
Import IPAddress.

Lemma prefix_enumerated p : 0 <= p <= 32 -> In p (Py.range1 33).
Proof.
  intros Hp. unfold Py.range1.
  replace p with (Z.of_nat (Z.to_nat p)) by lia.
  apply in_map, in_seq. lia.
Qed.

Lemma make_netmask_bounds mask p : make_netmask mask = Some p -> 0 <= p <= 32.
Proof.
  unfold make_netmask, prefix_from_prefix_string, prefix_from_ip_string,
    prefix_from_ip_int, max_prefixlen.
  destruct (negb (isdigit mask)).
  - destruct (ip_int_from_string mask) as [ip_int|]; [|discriminate].
    destruct (find _ _) as [q|] eqn:Hq.
    + intros [= <-]. apply find_some in Hq as [Hin _].
      unfold Py.range1 in Hin. apply in_map_iff in Hin as (i & <- & Hi).
      apply in_seq in Hi. lia.
    + intros Hf. apply find_some in Hf as [Hin _].
      unfold Py.range1 in Hin. apply in_map_iff in Hin as (i & <- & Hi).
      apply in_seq in Hi. lia.
  - destruct (_ && _) eqn:Hb.
    + intros [= <-]. apply andb_true_iff in Hb as [H0 H1]. lia.
    + destruct (ip_int_from_string mask) as [ip_int|]; [|discriminate].
      destruct (find _ _) as [q|] eqn:Hq.
      * intros [= <-]. apply find_some in Hq as [Hin _].
        unfold Py.range1 in Hin. apply in_map_iff in Hin as (i & <- & Hi).
        apply in_seq in Hi. lia.
      * intros Hf. apply find_some in Hf as [Hin _].
        unfold Py.range1 in Hin. apply in_map_iff in Hin as (i & <- & Hi).
        apply in_seq in Hi. lia.
Qed.

(** A network that [IPv4Network] accepts has a prefix length of 0 to 32 and
    no host bit set. *)
Lemma parse_network_valid subnet net :
  parse_network subnet = Py.Returns net ->
  0 <= prefixlen net <= 32 /\
  Z.land (network_address net) (netmask net) = network_address net.
Proof.
  unfold parse_network.
  destruct (split "/" subnet) as [|addr [|mask [|extra rest]]];
    try discriminate.
  - destruct (ip_int_from_string addr) as [packed|]; [|discriminate].
    destruct (Z.land packed (ip_int_from_prefix max_prefixlen) =? packed)
      eqn:Hbits; [|discriminate].
    intros [= <-]. unfold netmask. cbn [prefixlen network_address].
    apply Z.eqb_eq in Hbits.
    split; [unfold max_prefixlen; lia|exact Hbits].
  - destruct (ip_int_from_string addr) as [packed|]; [|discriminate].
    destruct (make_netmask mask) as [p|] eqn:Hp; [|discriminate].
    destruct (Z.land packed (ip_int_from_prefix p) =? packed) eqn:Hbits;
      [|discriminate].
    intros [= <-]. unfold netmask. cbn [prefixlen network_address].
    apply Z.eqb_eq in Hbits.
    split; [eapply make_netmask_bounds; eassumption|exact Hbits].
Qed.

Lemma lor_disjoint n mask host :
  Z.land n mask = n -> Z.land mask host = 0 -> Z.lor n host = n + host.
Proof.
  intros Hn Hd.
  assert (Z.land n host = 0) as H0
    by (rewrite <- Hn, <- Z.land_assoc, Hd; apply Z.land_0_r).
  now rewrite <- Z.lxor_lor, <- Z.add_nocarry_lxor.
Qed.

(** The broadcast address is the network address plus the host mask, and
    the host mask of a /p is 2^(32-p) - 1. *)
Lemma broadcast_plus_hostmask net :
  0 <= prefixlen net <= 32 ->
  Z.land (network_address net) (netmask net) = network_address net ->
  broadcast_address net = network_address net + hostmask net /\
  hostmask net = 2 ^ (32 - prefixlen net) - 1.
Proof.
  destruct net as [n p]. unfold broadcast_address, hostmask, netmask.
  cbn [network_address prefixlen]. intros Hp Hn.
  apply prefix_enumerated in Hp. cbn in Hp.
  repeat (destruct Hp as [<-|Hp];
          [split; [apply (lor_disjoint _ _ _ Hn)|]; reflexivity|]).
  contradiction.
Qed.

Lemma num_addresses_power net :
  0 <= prefixlen net <= 32 ->
  Z.land (network_address net) (netmask net) = network_address net ->
  num_addresses net = 2 ^ (32 - prefixlen net).
Proof.
  intros Hp Hn. unfold num_addresses.
  destruct (broadcast_plus_hostmask net Hp Hn) as [-> ->]. lia.
Qed.

Lemma range_step_one a b :
  Py.range a b 1 =
  Py.Returns (map (fun i => a + Z.of_nat i) (seq 0 (Z.to_nat (b - a)))).
Proof.
  unfold Py.range, Py.range_length. cbn [Z.eqb Z.ltb Z.compare].
  f_equal.
  destruct (b <=? a) eqn:Hc.
  - apply Z.leb_le in Hc. replace (Z.to_nat (b - a)) with 0%nat by lia.
    reflexivity.
  - apply Z.leb_gt in Hc. rewrite Z.div_1_r.
    replace (b - a - 1 + 1) with (b - a) by lia.
    apply map_ext. intros i. lia.
Qed.

Lemma progression_sorted a k n :
  StronglySorted Z.lt (map (fun i => a + Z.of_nat i) (seq k n)).
Proof.
  revert k. induction n as [|n IH]; intros k; cbn; constructor.
  - apply IH.
  - apply Forall_forall. intros x Hx.
    apply in_map_iff in Hx as (i & <- & Hi). apply in_seq in Hi. lia.
Qed.

Lemma progression_in a n x :
  In x (map (fun i => a + Z.of_nat i) (seq 0 n)) <-> a <= x < a + Z.of_nat n.
Proof.
  rewrite in_map_iff. split.
  - intros (i & <- & Hi). apply in_seq in Hi. lia.
  - intros Hx. exists (Z.to_nat (x - a)). split; [lia|].
    apply in_seq. lia.
Qed.

(** [hosts()] in closed form. *)
Lemma hosts_closed_form net :
  hosts net =
  if prefixlen net =? 31 then
    map (fun i => network_address net + Z.of_nat i)
        (seq 0 (Z.to_nat (broadcast_address net + 1 - network_address net)))
  else if prefixlen net =? 32 then [network_address net]
  else map (fun i => network_address net + 1 + Z.of_nat i)
           (seq 0 (Z.to_nat (broadcast_address net
                             - (network_address net + 1)))).
Proof.
  unfold hosts, max_prefixlen. cbn [Z.sub Z.add Z.opp Z.pos_sub].
  change (32 - 1) with 31. now rewrite !range_step_one.
Qed.

End Hosts.

(** C4, as corrected.  For every subnet string that [IPv4Network] accepts,
    both scripts submit one liveness task per element of [hosts()], in
    ascending numeric order.  When the prefix length is at most 30 these are
    exactly the addresses strictly between the network and the broadcast
    address, total addresses minus two of them, hence neither of the two;
    for a /31 they are the two addresses of the block, network and
    broadcast address included, and for a /32 the single address. *)
Theorem C4_hosts_of_a_valid_subnet :
  forall (subnet : string) (net : IPAddress.IPv4Network) (port : Z)
         (ports : list Z),
    IPAddress.parse_network subnet = Py.Returns net ->
    Toolkit.scan_subnet_tasks subnet port =
      Py.Returns (map (fun ip => (IPAddress.str_of_address ip, port))
                      (IPAddress.hosts net)) /\
    Recon.scan_subnet_tasks subnet ports =
      Py.Returns (map (fun ip => (ip, ports)) (IPAddress.hosts net)) /\
    StronglySorted Z.lt (IPAddress.hosts net) /\
    (IPAddress.prefixlen net <= 30 ->
     Z.of_nat (List.length (IPAddress.hosts net)) =
       IPAddress.num_addresses net - 2 /\
     (forall ip, In ip (IPAddress.hosts net) <->
                 IPAddress.network_address net < ip
                 < IPAddress.broadcast_address net) /\
     ~ In (IPAddress.network_address net) (IPAddress.hosts net) /\
     ~ In (IPAddress.broadcast_address net) (IPAddress.hosts net)) /\
    (IPAddress.prefixlen net = 31 ->
     IPAddress.num_addresses net = 2 /\
     IPAddress.hosts net =
       [IPAddress.network_address net; IPAddress.broadcast_address net]) /\
    (IPAddress.prefixlen net = 32 ->
     IPAddress.num_addresses net = 1 /\
     IPAddress.broadcast_address net = IPAddress.network_address net /\
     IPAddress.hosts net = [IPAddress.network_address net]).
Proof.
  intros subnet net port ports Hparse.
  destruct (parse_network_valid subnet net Hparse) as [Hp Hn].
  pose proof (num_addresses_power net Hp Hn) as Hnum.
  destruct (broadcast_plus_hostmask net Hp Hn) as [Hb Hh].
  pose proof (hosts_closed_form net) as Hhosts.
  split; [unfold Toolkit.scan_subnet_tasks; now rewrite Hparse|].
  split; [unfold Recon.scan_subnet_tasks; now rewrite Hparse|].
  split; [|split; [|split]].
  - rewrite Hhosts.
    destruct (IPAddress.prefixlen net =? 31); [apply progression_sorted|].
    destruct (IPAddress.prefixlen net =? 32); [|apply progression_sorted].
    repeat constructor.
  - intros Hle.
    assert (4 <= 2 ^ (32 - IPAddress.prefixlen net)) as Hpow.
    { change 4 with (2 ^ 2). apply Z.pow_le_mono_r; lia. }
    destruct (IPAddress.prefixlen net =? 31) eqn:E31;
      [apply Z.eqb_eq in E31; lia|].
    destruct (IPAddress.prefixlen net =? 32) eqn:E32;
      [apply Z.eqb_eq in E32; lia|].
    assert (forall ip, In ip (IPAddress.hosts net) <->
                       IPAddress.network_address net < ip
                       < IPAddress.broadcast_address net) as Hin.
    { intros ip. rewrite Hhosts, progression_in. lia. }
    split; [|split; [exact Hin|split]].
    + rewrite Hhosts, length_map, length_seq. lia.
    + rewrite Hin. lia.
    + rewrite Hin. lia.
  - intros H31. rewrite H31 in *.
    change (2 ^ (32 - 31)) with 2 in *.
    split; [exact Hnum|].
    rewrite Hhosts. cbn [Z.eqb Pos.eqb].
    replace (IPAddress.broadcast_address net + 1
             - IPAddress.network_address net) with 2 by lia.
    change (Z.to_nat 2) with 2%nat. cbn [seq map].
    repeat (f_equal; try lia).
  - intros H32. rewrite H32 in *.
    change (2 ^ (32 - 32)) with 1 in *.
    split; [exact Hnum|]. split; [lia|].
    rewrite Hhosts. reflexivity.
Qed.

(** The claim as stated fails: 10.0.0.0/31 is a valid subnet of two
    addresses; total minus two is zero, yet both addresses are yielded, the
    network address 10.0.0.0 and the broadcast address 10.0.0.1 among them. *)
Lemma C4_slash_31_counterexample :
  IPAddress.parse_network "10.0.0.0/31" =
    Py.Returns (IPAddress.mkNetwork 167772160 31) /\
  IPAddress.num_addresses (IPAddress.mkNetwork 167772160 31) - 2 = 0 /\
  IPAddress.hosts (IPAddress.mkNetwork 167772160 31) =
    [IPAddress.network_address (IPAddress.mkNetwork 167772160 31);
     IPAddress.broadcast_address (IPAddress.mkNetwork 167772160 31)] /\
  Toolkit.scan_subnet_tasks "10.0.0.0/31" 502 =
    Py.Returns [("10.0.0.0", 502); ("10.0.0.1", 502)].
Proof.
  repeat (split; [vm_compute; reflexivity|]). vm_compute; reflexivity.
Qed.

(** The corrected statement at 10.0.0.0/30, the two-host subnet of the
    specification's end-to-end scenario. *)
Lemma C4_hosts_witness :
  IPAddress.parse_network "10.0.0.0/30" =
    Py.Returns (IPAddress.mkNetwork 167772160 30) /\
  Toolkit.scan_subnet_tasks "10.0.0.0/30" 502 =
    Py.Returns
      (map (fun ip => (IPAddress.str_of_address ip, 502))
           (IPAddress.hosts (IPAddress.mkNetwork 167772160 30))).
Proof.
  assert (IPAddress.parse_network "10.0.0.0/30" =
          Py.Returns (IPAddress.mkNetwork 167772160 30)) as Hparse
    by (vm_compute; reflexivity).
  split; [exact Hparse|].
  exact (proj1 (C4_hosts_of_a_valid_subnet "10.0.0.0/30"
                  (IPAddress.mkNetwork 167772160 30) 502 [502] Hparse)).
Defined.

(** ** The banner request on the wire *)

(** C5, where the code departs from the claim.  Whatever the network does,
    the banner probe never raises, sends at most one frame, always the same
    one, asks for at most 1024 bytes and returns the hexadecimal text of
    what it received or no banner.  But the frame it sends is ten bytes
    long: it is the twelve-byte frame of the specification (transaction id
    0, protocol id 0, length 6, unit id 1, function code 3, start address 0,
    count 1) with two zero bytes of the header missing, so that it is not a
    complete request, and a receiver reading its header finds protocol id 6
    and length 259. *)
Theorem C5_banner_request_misses_two_bytes :
  forall (World : Type) (net : Network World) ip port (s : State World),
    ((match fst (Toolkit.banner_grab ip port s) with
      | None => True
      | Some b => exists data,
          b = Py.hex data /\ (List.length data <= 1024)%nat
      end) /\
     exists events,
       log (snd (Toolkit.banner_grab ip port s)) = (log s ++ events)%list /\
       (sent_frames events = [] \/
        sent_frames events = [Toolkit.banner_request]) /\
       (recv_sizes events = [] \/ recv_sizes events = [1024])) /\
    Toolkit.banner_request <> Spec.encode Spec.banner_frame /\
    List.length Toolkit.banner_request = 10%nat /\
    List.length (Spec.encode Spec.banner_frame) = 12%nat /\
    Spec.decode Toolkit.banner_request = None /\
    Spec.decode_header Toolkit.banner_request = Some (0, 6, 259, 0) /\
    Spec.decode (x00 :: x00 :: Toolkit.banner_request) =
      Some Spec.banner_frame.
Proof.
  intros World net ip port s.
  split; [apply banner_grab_spec|].
  split.
  { intros Heq. apply (f_equal (@List.length byte)) in Heq.
    vm_compute in Heq. discriminate. }
  split; [vm_compute; reflexivity|].
  split; [vm_compute; reflexivity|].
  split; [vm_compute; reflexivity|].
  split; vm_compute; reflexivity.
Qed.

(** ** Sessions left open *)

(** C6, where the code departs from the claim.  The liveness check of
    modbus_toolkit.py closes its client when the read fails and leaves it
    open exactly when the host is live (it returns the address before the
    close); on concrete runs, the liveness check of modbusrecon_toolkit.py
    closes its client after a response and leaves it open when the read
    raises, and the banner probe leaves its socket open when sending
    raises. *)
Theorem C6_sessions_left_open :
  (forall (World : Type) (net : Network World) ip port (s : State World),
      exists events,
        log (snd (Toolkit.check_modbus ip port s)) = (log s ++ events)%list /\
        open_clients events [] =
        match fst (Toolkit.check_modbus ip port s) with
        | Some _ => [mkClient ip port]
        | None => []
        end) /\
  Scripted.run (Toolkit.check_modbus "10.0.0.5" 502)
    [Scripted.Connects true; Scripted.Bits [true]] =
  (Some "10.0.0.5",
   [EvConnect (mkClient "10.0.0.5" 502) true;
    EvRequest (mkClient "10.0.0.5" 502) (ReadCoils 0 1) OK]) /\
  Scripted.run (Recon.check_modbus 167772165 [502])
    [Scripted.Connects true; Scripted.Fails "timed out"] =
  (None,
   [EvConnect (mkClient "10.0.0.5" 502) true;
    EvRequest (mkClient "10.0.0.5" 502) (ReadCoils 0 1)
      (Exception "timed out")]) /\
  open_clients
    (snd (Scripted.run (Recon.check_modbus 167772165 [502])
            [Scripted.Connects true; Scripted.Fails "timed out"])) [] =
  [mkClient "10.0.0.5" 502] /\
  open_clients
    (snd (Scripted.run (Recon.check_modbus 167772165 [502])
            [Scripted.Connects true; Scripted.Bits [true]])) [] = [] /\
  open_sockets
    (snd (Scripted.run (Toolkit.banner_grab "10.0.0.5" 502)
            [Scripted.Done; Scripted.Fails "connection reset"])) 0 = 1%nat.
Proof.
  split; [|repeat (split; [vm_compute; reflexivity|]); vm_compute; reflexivity].
  intros World net ip port s.
  unfold Toolkit.check_modbus, Toolkit.connect, bind, ret, client_connect,
    read_coils, client_close, call.
  destruct (net_connect (mkClient ip port) (world s)) as [[|] w1];
    cbn [fst snd world log].
  - destruct (net_read_coils (mkClient ip port) 0 1 w1) as [[[|bits]|msg] w2];
      cbn [fst snd world log];
      (eexists; split; [rewrite <- ?app_assoc; reflexivity|]);
      cbn; unfold client_eqb; cbn;
      rewrite ?String.eqb_refl, ?Z.eqb_refl; reflexivity.
  - eexists. split; [reflexivity|]. reflexivity.
Qed.

(** ** Key sets of the records handed to the report *)

(** C7, where the code departs from the claim.  In modbusrecon_toolkit.py,
    two targets of which the first raises on device identification and the
    second answers it give two records with different key sets, and
    [save_csv] raises ValueError on them; in modbus_toolkit.py a target that
    answers and one that refuses give a device_info record and a fallback
    record with different key sets. *)
Theorem C7_records_with_different_keys :
  fst (Scripted.run
         (Recon.collect_fingerprints [("10.0.0.5", 502); ("10.0.0.6", 502)])
         [Scripted.Connects true; Scripted.Fails "timed out";
          Scripted.Connects true; Scripted.Information [(0, "Siemens")]]) =
  [[("Host", FStr "10.0.0.5"); ("Port", FInt 502);
    ("Type", FStr "device_info");
    ("Status", FStr "Exception: timed out")];
   [("Host", FStr "10.0.0.6"); ("Port", FInt 502);
    ("Type", FStr "device_info"); ("Status", FStr "OK");
    ("device_0", FStr "Siemens"); ("Vendor", FStr "Siemens S7")]] /\
  same_keys
    [("Host", FStr "10.0.0.5"); ("Port", FInt 502);
     ("Type", FStr "device_info");
     ("Status", FStr "Exception: timed out")]
    [("Host", FStr "10.0.0.6"); ("Port", FInt 502);
     ("Type", FStr "device_info"); ("Status", FStr "OK");
     ("device_0", FStr "Siemens"); ("Vendor", FStr "Siemens S7")] = false /\
  Recon.save_csv
    (fst (Scripted.run
            (Recon.collect_fingerprints
               [("10.0.0.5", 502); ("10.0.0.6", 502)])
            [Scripted.Connects true; Scripted.Fails "timed out";
             Scripted.Connects true; Scripted.Information [(0, "Siemens")]]))
  = Py.Throws Py.ValueError /\
  map (@Py.keys FieldValue)
    (fst (Scripted.run
            (Toolkit.collect_fingerprints ["10.0.0.5"; "10.0.0.6"] 502)
            [Scripted.Connects true; Scripted.Information [(0, "Siemens")];
             Scripted.Connects true; Scripted.Refuses])) =
  [["Host"; "Type"; "Status"; "device_0"];
   ["Host"; "Type"; "Status"; "Banner"; "RegisterSample"]].
Proof.
  repeat (split; [vm_compute; reflexivity|]). vm_compute; reflexivity.
Qed.

(** * Further properties of the scripts *)

(** ** Logs *)

Lemma open_clients_app e1 e2 opened :
  open_clients (e1 ++ e2) opened = open_clients e2 (open_clients e1 opened).
Proof.
  revert opened. induction e1 as [|e e1 IH]; intros opened; [reflexivity|].
  destruct e as [c [|]|c r t|c|h p t ok|d|n|]; cbn [app open_clients];
    apply IH.
Qed.

Lemma open_clients_neutral events opened :
  session_neutral events = true -> open_clients events opened = opened.
Proof.
  revert opened. induction events as [|e events IH]; intros opened;
    [reflexivity|].
  unfold session_neutral. cbn [forallb]. intros Hn.
  apply andb_true_iff in Hn as [He Hrest].
  destruct e as [c ok|c r t|c|h p t ok|d|n|]; try discriminate;
    cbn [open_clients]; apply IH; exact Hrest.
Qed.

Lemma session_neutral_app e1 e2 :
  session_neutral (e1 ++ e2) = session_neutral e1 && session_neutral e2.
Proof. unfold session_neutral. apply forallb_app. Qed.

Lemma neutral_no_connect events :
  session_neutral events = true ->
  connect_attempts events = [] /\ connected_clients events = [].
Proof.
  induction events as [|e events IH]; [now split|].
  unfold session_neutral. cbn [forallb]. intros Hn.
  apply andb_true_iff in Hn as [He Hrest]. destruct (IH Hrest) as [H1 H2].
  destruct e as [c ok|c r t|c|h p t ok|d|n|]; try discriminate;
    cbn; auto.
Qed.

(** A log made of requests only. *)
Lemma requests_only events (l : list (Client * Request)) :
  map event_request events = map Some l ->
  requests_of events = l /\ session_neutral events = true /\
  socket_targets events = [].
Proof.
  unfold requests_of, session_neutral, socket_targets.
  revert l. induction events as [|e events IH]; intros [|x l] Hmap;
    try discriminate; [now repeat split|].
  cbn [map] in Hmap. injection Hmap as He Hrest.
  destruct (IH l Hrest) as (H1 & H2 & H3).
  destruct e as [c ok|c r t|c|h p t ok|d|n|]; try discriminate.
  cbn in He. injection He as <-.
  cbn [flat_map forallb app andb]. rewrite H1, H2, H3. auto.
Qed.

(** ** The banner probe, step by step *)

(** The four ways a banner probe can go.  It opens one raw connection to
    [(ip, port)] with a timeout of 2 seconds; the socket is closed only
    after a successful receive, and only then can a banner come back. *)
Theorem banner_grab_runs :
  forall (World : Type) (net : Network World) ip port (s : State World),
  exists events,
    log (snd (Toolkit.banner_grab ip port s)) = (log s ++ events)%list /\
    ((events = [EvSockConnect ip port 2 false] /\
      fst (Toolkit.banner_grab ip port s) = None /\
      open_sockets events 0 = 0%nat) \/
     (events = [EvSockConnect ip port 2 true;
                EvSockSend Toolkit.banner_request] /\
      fst (Toolkit.banner_grab ip port s) = None /\
      open_sockets events 0 = 1%nat) \/
     (events = [EvSockConnect ip port 2 true;
                EvSockSend Toolkit.banner_request; EvSockRecv 1024] /\
      fst (Toolkit.banner_grab ip port s) = None /\
      open_sockets events 0 = 1%nat) \/
     (events = [EvSockConnect ip port 2 true;
                EvSockSend Toolkit.banner_request; EvSockRecv 1024;
                EvSockClose] /\
      open_sockets events 0 = 0%nat)) /\
    (fst (Toolkit.banner_grab ip port s) <> None ->
     events = [EvSockConnect ip port 2 true;
               EvSockSend Toolkit.banner_request; EvSockRecv 1024;
               EvSockClose]).
Proof.
  intros World net ip port s.
  unfold Toolkit.banner_grab, bind, ret, create_connection, send, recv,
    close_socket, call.
  destruct (sock_create_connection ip port (world s)) as [[u|msg] w1];
    cbn [fst snd world log connected_of].
  2:{ eexists. split; [reflexivity|]. split; [|congruence]. left. auto. }
  destruct (sock_send Toolkit.banner_request w1) as [[u2|msg] w2];
    cbn [fst snd world log].
  2:{ eexists. split; [rewrite <- app_assoc; reflexivity|].
      split; [|congruence]. right; left. auto. }
  destruct (sock_recv w2) as [[data|msg] w3]; cbn [fst snd world log].
  2:{ eexists. split; [rewrite <- !app_assoc; reflexivity|].
      split; [|congruence]. right; right; left. auto. }
  destruct (sock_close w3) as [[u4|msg] w4]; cbn [fst snd world log];
    (eexists; split; [rewrite <- !app_assoc; reflexivity|]);
    (split; [right; right; right; auto|auto]).
Qed.

(** ** The liveness check of modbus_toolkit.py *)

(** [check_modbus] tries the connection once; when it succeeds it issues
    exactly one request, [read_coils(0, 1)], and reports the host (under the
    very address it was given) exactly when that request is answered by a
    normal response; otherwise it closes the client and reports nothing. *)
Theorem toolkit_check_modbus_runs :
  forall (World : Type) (net : Network World) ip port (s : State World),
  exists events,
    log (snd (Toolkit.check_modbus ip port s)) = (log s ++ events)%list /\
    ((events = [EvConnect (mkClient ip port) false] /\
      fst (Toolkit.check_modbus ip port s) = None) \/
     (events = [EvConnect (mkClient ip port) true;
                EvRequest (mkClient ip port) (ReadCoils 0 1) OK] /\
      fst (Toolkit.check_modbus ip port s) = Some ip) \/
     (exists tag,
         tag <> OK /\
         events = [EvConnect (mkClient ip port) true;
                   EvRequest (mkClient ip port) (ReadCoils 0 1) tag;
                   EvClose (mkClient ip port)] /\
         fst (Toolkit.check_modbus ip port s) = None)).
Proof.
  intros World net ip port s.
  unfold Toolkit.check_modbus, Toolkit.connect, bind, ret, client_connect,
    read_coils, client_close, call.
  destruct (net_connect (mkClient ip port) (world s)) as [[|] w1];
    cbn [fst snd world log].
  - destruct (net_read_coils (mkClient ip port) 0 1 w1) as [[[|bits]|msg] w2];
      cbn [fst snd world log tag_of];
      (eexists; split; [rewrite <- ?app_assoc; reflexivity|]).
    + right; right. exists Error. repeat split. discriminate.
    + right; left. auto.
    + right; right. exists (Exception msg). repeat split. discriminate.
  - eexists. split; [reflexivity|]. left. auto.
Qed.

(** ** What a fingerprint puts on the wire *)

Section FingerprintEvents.
Context {World : Type} `{Network World}.

Lemma banner_grab_sockets ip port (s : State World) :
  exists events,
    log (snd (Toolkit.banner_grab ip port s)) = (log s ++ events)%list /\
    socket_targets events = [(ip, port, 2)] /\
    requests_of events = [] /\
    session_neutral events = true.
Proof.
  unfold Toolkit.banner_grab, bind, ret, create_connection, send, recv,
    close_socket, call.
  destruct (sock_create_connection ip port (world s)) as [[u|msg] w1];
    cbn [fst snd world log].
  2:{ eexists. split; [reflexivity|]. now repeat split. }
  destruct (sock_send Toolkit.banner_request w1) as [[u2|msg] w2];
    cbn [fst snd world log].
  2:{ eexists. split; [rewrite <- app_assoc; reflexivity|]. now repeat split. }
  destruct (sock_recv w2) as [[data|msg] w3]; cbn [fst snd world log].
  2:{ eexists. split; [rewrite <- !app_assoc; reflexivity|].
      now repeat split. }
  destruct (sock_close w3) as [[u4|msg] w4]; cbn [fst snd world log];
    (eexists; split; [rewrite <- !app_assoc; reflexivity|]);
    now repeat split.
Qed.

Lemma fallback_fingerprint_events client ip (s : State World) :
  exists patterns b events s',
    Toolkit.fallback_fingerprint client ip s =
      (Py.Returns [("Host", FStr ip);
                   ("Type", FStr "fallback_fingerprint");
                   ("Status", FStr "OK");
                   ("Banner", FStr b);
                   ("RegisterSample", FRepr patterns)], s') /\
    log s' = (log s ++ events)%list /\
    requests_of events =
      map (fun a => (client, ReadHolding a 2)) [0; 2; 4; 6; 8] /\
    socket_targets events = [(ip, 502, 2)] /\
    session_neutral events = true.
Proof.
  unfold Toolkit.fallback_fingerprint. unfold bind at 1.
  rewrite (scan_registers_returns client ip 0 10 2 "holding" [0; 2; 4; 6; 8])
    by reflexivity.
  destruct (sweep_one_per_window
              (Toolkit.register_window client ip 2 "holding") client
              (register_request "holding" 2) ip "holding" [0; 2; 4; 6; 8] s
              (fun addr s0 => register_window_ok client ip 2 "holding" addr s0)
              (fun addr s0 =>
                 register_window_event client ip 2 "holding" addr s0))
    as ((reads & Hlog & Hreq & _) & _).
  set (swept := collect _ _ s) in *.
  rewrite <- (map_map (fun a => (client, register_request "holding" 2 a)) Some)
    in Hreq.
  apply requests_only in Hreq as (Hreads & Hneutral & Hsock).
  unfold bind, ret.
  destruct (banner_grab_sockets ip 502 (snd swept))
    as (socks & Hlog2 & Ht & Hr & Hn).
  destruct (Toolkit.banner_grab ip 502 (snd swept)) as [banner s2];
    cbn [fst snd] in *.
  eexists _, _, (reads ++ socks)%list, _. split; [reflexivity|].
  split; [rewrite Hlog2, Hlog, app_assoc; reflexivity|].
  unfold requests_of, socket_targets in *.
  rewrite !flat_map_app, session_neutral_app, Hreads, Hsock, Ht, Hr,
    Hneutral, Hn, app_nil_r.
  auto.
Qed.

(** The run of [fingerprint_device] of modbus_toolkit.py: the record, and
    the events after the device-identification request. *)
Lemma toolkit_fingerprint_events client ip (s : State World) :
  exists record tag rest s',
    Toolkit.fingerprint_device client ip s = (Py.Returns record, s') /\
    log s' =
      (log s ++ EvRequest client ReadDeviceInformation tag :: rest)%list /\
    session_neutral rest = true /\
    Py.getitem "Host" record = Some (FStr ip) /\
    record <> [] /\
    match tag with
    | OK => rest = []
    | _ =>
        requests_of rest =
          map (fun a => (client, ReadHolding a 2)) [0; 2; 4; 6; 8] /\
        socket_targets rest = [(ip, 502, 2)]
    end.
Proof.
  unfold Toolkit.fingerprint_device, bind, ret, read_device_information, call.
  destruct (net_read_device_information client (world s))
    as [[[|information]|msg] w]; cbn [fst snd tag_of].
  - match goal with |- context [Toolkit.fallback_fingerprint client ip ?s1] =>
      destruct (fallback_fingerprint_events client ip s1)
        as (patterns & b & events & s' & -> & Hlog & Hreq & Hsock & Hn) end.
    cbn [log] in Hlog.
    eexists _, Error, events, s'. split; [reflexivity|].
    rewrite Hlog, <- app_assoc. repeat split; auto. discriminate.
  - eexists (add_device_fields information
               [("Host", FStr ip); ("Type", FStr "device_info");
                ("Status", FStr "OK")]), OK, [], _.
    split; [reflexivity|]. split; [reflexivity|]. split; [reflexivity|].
    split; [now rewrite getitem_add_device_fields|]. split; [|reflexivity].
    intros Hnil.
    assert (Py.getitem "Host"
              (add_device_fields information
                 [("Host", FStr ip); ("Type", FStr "device_info");
                  ("Status", FStr "OK")]) = Some (FStr ip)) as Hhost
      by now rewrite getitem_add_device_fields.
    rewrite Hnil in Hhost. discriminate.
  - match goal with |- context [Toolkit.fallback_fingerprint client ip ?s1] =>
      destruct (fallback_fingerprint_events client ip s1)
        as (patterns & b & events & s' & -> & Hlog & Hreq & Hsock & Hn) end.
    cbn [log] in Hlog.
    eexists _, (Exception msg), events, s'. split; [reflexivity|].
    rewrite Hlog, <- app_assoc. repeat split; auto. discriminate.
Qed.

End FingerprintEvents.


(** ** The loops of [main] over the targets *)

Section MainLoops.
Context {World : Type} `{Network World}.

(** A loop whose every round appends some results and some events: what
    holds of each round, summed over the rounds. *)
Lemma for_each_summary {A B} (body : A -> list B -> M World (list B))
    (P : A -> list B -> list Event -> Prop)
    (Q : list A -> list B -> list Event -> Prop) :
  (forall x acc s, exists new events,
      fst (body x acc s) = (acc ++ new)%list /\
      log (snd (body x acc s)) = (log s ++ events)%list /\
      P x new events) ->
  Q [] [] [] ->
  (forall x xs new events new' events',
      P x new events -> Q xs new' events' ->
      Q (x :: xs) (new ++ new')%list (events ++ events')%list) ->
  forall xs acc s, exists new events,
    fst (for_each xs body acc s) = (acc ++ new)%list /\
    log (snd (for_each xs body acc s)) = (log s ++ events)%list /\
    Q xs new events.
Proof.
  intros Hstep Hnil Hcons xs.
  induction xs as [|x xs IH]; intros acc s; cbn [for_each].
  - exists [], []. unfold ret; cbn. rewrite !app_nil_r. auto.
  - unfold bind.
    destruct (Hstep x acc s) as (new & events & Hnew & Hlog & HP).
    destruct (body x acc s) as [acc1 s1]; cbn [fst snd] in *. subst acc1.
    destruct (IH (acc ++ new)%list s1) as (new' & events' & Hnew' & Hlog' & HQ).
    exists (new ++ new')%list, (events ++ events')%list.
    rewrite Hnew', Hlog', Hlog, <- !app_assoc. auto.
Qed.

Lemma client_eqb_refl c : client_eqb c c = true.
Proof. unfold client_eqb. now rewrite String.eqb_refl, Z.eqb_refl. Qed.

Lemma toolkit_main_round port ip (acc : list FingerprintRecord)
    (s : State World) :
  let body := fun ip all_results =>
    c <- Toolkit.connect ip port ;;
    match c with
    | None => ret all_results
    | Some client =>
        r <- Toolkit.fingerprint_device client ip ;;
        match r with
        | Py.Throws _ => ret all_results
        | Py.Returns info =>
            _ <- client_close client ;;
            ret (match info with
                 | [] => all_results
                 | _ => (all_results ++ [info])%list
                 end)
        end
    end in
  exists new events,
    fst (body ip acc s) = (acc ++ new)%list /\
    log (snd (body ip acc s)) = (log s ++ events)%list /\
    connect_attempts events = [mkClient ip port] /\
    map (Py.getitem "Host") new =
      map (fun c => Some (FStr (client_host c))) (connected_clients events) /\
    open_clients events [] = [].
Proof.
  cbv zeta. unfold Toolkit.connect, bind, ret, client_connect, call.
  destruct (net_connect (mkClient ip port) (world s)) as [[|] w1];
    cbn [fst snd world log].
  - match goal with |- context [Toolkit.fingerprint_device ?c ip ?s1] =>
      destruct (toolkit_fingerprint_events c ip s1)
        as (record & tag & rest & s' & -> & Hlog & Hn & Hhost & Hne & _) end.
    cbn [log] in Hlog. unfold client_close, call. cbn [fst snd world log].
    exists [record],
      (EvConnect (mkClient ip port) true ::
       EvRequest (mkClient ip port) ReadDeviceInformation tag ::
       rest ++ [EvClose (mkClient ip port)])%list.
    split; [destruct record; [contradiction|reflexivity]|].
    split; [rewrite Hlog, <- !app_assoc; reflexivity|].
    destruct (neutral_no_connect rest Hn) as [Hc1 Hc2].
    unfold connect_attempts, connected_clients in *.
    cbn [flat_map app]. rewrite !flat_map_app, Hc1, Hc2. cbn.
    repeat split; [now rewrite Hhost|].
    rewrite open_clients_app, (open_clients_neutral rest _ Hn). cbn.
    now rewrite client_eqb_refl.
  - exists [], [EvConnect (mkClient ip port) false].
    rewrite app_nil_r. auto.
Qed.

Lemma recon_main_round ip port (acc : list FingerprintRecord)
    (s : State World) :
  let body := fun '(ip, port) all_results =>
    c <- Recon.connect ip port ;;
    match c with
    | None => ret all_results
    | Some client =>
        result <- Recon.fingerprint_device client ip port ;;
        _ <- client_close client ;;
        ret (match result with
             | Some [] => all_results
             | Some info => (all_results ++ [info])%list
             | None => all_results
             end)
    end in
  exists new events,
    fst (body (ip, port) acc s) = (acc ++ new)%list /\
    log (snd (body (ip, port) acc s)) = (log s ++ events)%list /\
    connect_attempts events = [mkClient ip port] /\
    requests_of events =
      map (fun c => (c, ReadDeviceInformation)) (connected_clients events) /\
    map (fun r => (Py.getitem "Host" r, Py.getitem "Port" r)) new =
      map (fun c => (Some (FStr (client_host c)),
                     Some (FInt (client_port c))))
          (identified_clients events) /\
    open_clients events [] = [].
Proof.
  cbv zeta. unfold Recon.connect, bind, ret, client_connect, call.
  destruct (net_connect (mkClient ip port) (world s)) as [[|] w1];
    cbn [fst snd world log].
  - unfold Recon.fingerprint_device, bind, ret, read_device_information,
      client_close, call. cbn [fst snd world log].
    destruct (net_read_device_information (mkClient ip port) w1)
      as [[[|information]|msg] w2]; cbn [fst snd world log tag_of].
    + exists []. eexists.
      split; [now rewrite app_nil_r|].
      split; [rewrite <- !app_assoc; reflexivity|].
      cbn. now rewrite client_eqb_refl.
    + set (record := Py.setitem "Vendor" _ _).
      assert (Py.getitem "Host" record = Some (FStr ip) /\
              Py.getitem "Port" record = Some (FInt port)) as [Hh Hp].
      { unfold record.
        rewrite !getitem_setitem_other by discriminate.
        now rewrite !getitem_add_device_fields by reflexivity. }
      exists [record]. eexists.
      split; [destruct record; [discriminate|reflexivity]|].
      split; [rewrite <- !app_assoc; reflexivity|].
      cbn. now rewrite client_eqb_refl, Hh, Hp.
    + eexists [_]. eexists.
      split; [reflexivity|].
      split; [rewrite <- !app_assoc; reflexivity|].
      cbn. now rewrite client_eqb_refl.
  - exists [], [EvConnect (mkClient ip port) false].
    rewrite app_nil_r. repeat split.
Qed.

End MainLoops.

(** The loop of [main] of modbus_toolkit.py tries every target once, in
    order, on the given port; it adds exactly one record per target whose
    connection succeeded, in target order and under the target's address,
    and it leaves no client open. *)
Theorem toolkit_main_one_record_per_connection :
  forall (World : Type) (net : Network World) targets port (s : State World),
  exists events,
    log (snd (Toolkit.collect_fingerprints targets port s)) =
      (log s ++ events)%list /\
    connect_attempts events = map (fun ip => mkClient ip port) targets /\
    map (Py.getitem "Host")
        (fst (Toolkit.collect_fingerprints targets port s)) =
      map (fun c => Some (FStr (client_host c))) (connected_clients events) /\
    open_clients events [] = [].
Proof.
  intros World net targets port s. unfold Toolkit.collect_fingerprints.
  destruct (for_each_summary _
              (fun ip new events =>
                 connect_attempts events = [mkClient ip port] /\
                 map (Py.getitem "Host") new =
                   map (fun c => Some (FStr (client_host c)))
                       (connected_clients events) /\
                 open_clients events [] = [])
              (fun xs new events =>
                 connect_attempts events =
                   map (fun ip => mkClient ip port) xs /\
                 map (Py.getitem "Host") new =
                   map (fun c => Some (FStr (client_host c)))
                       (connected_clients events) /\
                 open_clients events [] = [])
              (fun ip acc s0 => toolkit_main_round port ip acc s0))
    with (xs := targets) (acc := @nil FingerprintRecord) (s := s)
    as (new & events & Hnew & Hlog & Hq1 & Hq2 & Hq3).
  - auto.
  - intros x xs new events new' events' (Ha & Hb & Hc) (Ha' & Hb' & Hc').
    unfold connect_attempts, connected_clients in *.
    rewrite !flat_map_app, !map_app, Ha, Ha', Hb, Hb', open_clients_app, Hc.
    auto.
  - exists events. split; [exact Hlog|]. split; [exact Hq1|].
    split; [|exact Hq3].
    etransitivity; [|exact Hq2]. f_equal. exact Hnew.
Qed.

(** The loop of [main] of modbusrecon_toolkit.py tries every target once,
    in order; every connected target receives exactly one
    device-identification request and is closed afterwards; the records
    appended are, in order and under their host and port, those of the
    targets whose request was not answered by a protocol error. *)
Theorem recon_main_records_and_sessions :
  forall (World : Type) (net : Network World) targets (s : State World),
  exists events,
    log (snd (Recon.collect_fingerprints targets s)) =
      (log s ++ events)%list /\
    connect_attempts events =
      map (fun t => mkClient (fst t) (snd t)) targets /\
    requests_of events =
      map (fun c => (c, ReadDeviceInformation)) (connected_clients events) /\
    map (fun r => (Py.getitem "Host" r, Py.getitem "Port" r))
        (fst (Recon.collect_fingerprints targets s)) =
      map (fun c => (Some (FStr (client_host c)),
                     Some (FInt (client_port c))))
          (identified_clients events) /\
    open_clients events [] = [].
Proof.
  intros World net targets s. unfold Recon.collect_fingerprints.
  destruct (for_each_summary _
              (fun (t : string * Z) new events =>
                 connect_attempts events = [mkClient (fst t) (snd t)] /\
                 requests_of events =
                   map (fun c => (c, ReadDeviceInformation))
                       (connected_clients events) /\
                 map (fun r => (Py.getitem "Host" r, Py.getitem "Port" r))
                     new =
                   map (fun c => (Some (FStr (client_host c)),
                                  Some (FInt (client_port c))))
                       (identified_clients events) /\
                 open_clients events [] = [])
              (fun xs new events =>
                 connect_attempts events =
                   map (fun t => mkClient (fst t) (snd t)) xs /\
                 requests_of events =
                   map (fun c => (c, ReadDeviceInformation))
                       (connected_clients events) /\
                 map (fun r => (Py.getitem "Host" r, Py.getitem "Port" r))
                     new =
                   map (fun c => (Some (FStr (client_host c)),
                                  Some (FInt (client_port c))))
                       (identified_clients events) /\
                 open_clients events [] = [])
              (fun t acc s0 =>
                 match t with
                 | (ip, port) => recon_main_round ip port acc s0
                 end))
    with (xs := targets) (acc := @nil FingerprintRecord) (s := s)
    as (new & events & Hnew & Hlog & Hq1 & Hq2 & Hq3 & Hq4).
  - auto.
  - intros x xs new events new' events'
      (Ha & Hb & Hc & Hd) (Ha' & Hb' & Hc' & Hd').
    unfold connect_attempts, connected_clients, requests_of,
      identified_clients in *.
    rewrite !flat_map_app, !map_app, Ha, Ha', Hb, Hb', Hc, Hc',
      open_clients_app, Hd.
    auto.
  - exists events. split; [exact Hlog|]. split; [exact Hq1|].
    split; [exact Hq2|]. split; [|exact Hq4].
    etransitivity; [|exact Hq3]. f_equal. exact Hnew.
Qed.

(** ** The liveness check of modbusrecon_toolkit.py *)

Section ReconLiveness.
Context {World : Type} `{Network World}.

Lemma client_eqb_eq a b : client_eqb a b = true -> a = b.
Proof.
  destruct a as [ha pa], b as [hb pb]. unfold client_eqb. cbn.
  intros Hab. apply andb_true_iff in Hab as [Hh Hp].
  apply String.eqb_eq in Hh. apply Z.eqb_eq in Hp. congruence.
Qed.

Lemma remove_client_last c opened :
  Permutation (remove_client c (opened ++ [c])) opened.
Proof.
  induction opened as [|x opened IH]; cbn.
  - now rewrite client_eqb_refl.
  - destruct (client_eqb c x) eqn:E.
    + apply client_eqb_eq in E. subst x.
      symmetry. apply Permutation_cons_append.
    + now constructor.
Qed.

(** The whole run of [check_modbus] over a list of ports. *)
Lemma recon_check_modbus_run ip ports (s : State World) :
  exists events,
    log (snd (Recon.check_modbus ip ports s)) = (log s ++ events)%list /\
    match fst (Recon.check_modbus ip ports s) with
    | Some (host, port) =>
        host = IPAddress.str_of_address ip /\
        exists before after,
          ports = (before ++ port :: after)%list /\
          connect_attempts events =
            map (mkClient (IPAddress.str_of_address ip))
                (before ++ [port])%list /\
          answered_requests events =
            [(mkClient (IPAddress.str_of_address ip) port, ReadCoils 0 1)]
    | None =>
        connect_attempts events =
          map (mkClient (IPAddress.str_of_address ip)) ports /\
        answered_requests events = []
    end /\
    requests_of events =
      map (fun c => (c, ReadCoils 0 1)) (connected_clients events) /\
    forall opened,
      Permutation (open_clients events opened)
                  (opened ++ raised_requests events)%list.
Proof.
  revert s. induction ports as [|port rest IH]; intros s.
  - exists []. cbn. rewrite app_nil_r. repeat split.
    intros opened. now rewrite app_nil_r.
  - cbn [Recon.check_modbus].
    set (c := mkClient (IPAddress.str_of_address ip) port).
    unfold bind, ret, client_connect, read_coils, client_close, call.
    destruct (net_connect c (world s)) as [[|] w1];
      cbn [fst snd world log negb].
    + destruct (net_read_coils c 0 1 w1) as [[[|bits]|msg] w2];
        cbn [fst snd world log tag_of].
      * match goal with |- context [Recon.check_modbus ip rest ?s1] =>
          destruct (IH s1) as (events & Hlog & Hres & Hreq & Hopen);
          destruct (Recon.check_modbus ip rest s1) as [r s2] end.
        cbn [fst snd log] in *.
        exists (EvConnect c true :: EvRequest c (ReadCoils 0 1) Error ::
                EvClose c :: events).
        split; [rewrite Hlog, <- !app_assoc; reflexivity|].
        split; [|split].
        -- destruct r as [[host port']|].
           ++ destruct Hres as (Hh & before & after & Hp & Hc & Ha).
              split; [exact Hh|]. exists (port :: before), after.
              cbn. rewrite Hp. unfold connect_attempts in Hc.
              rewrite Hc. auto.
           ++ destruct Hres as (Hc & Ha). cbn.
              unfold connect_attempts in Hc. rewrite Hc. auto.
        -- cbn. unfold requests_of in Hreq. now rewrite Hreq.
        -- intros opened. cbn.
           etransitivity; [apply Hopen|].
           apply Permutation_app_tail, remove_client_last.
      * exists [EvConnect c true; EvRequest c (ReadCoils 0 1) OK; EvClose c].
        split; [rewrite <- !app_assoc; reflexivity|].
        split; [|split].
        -- split; [reflexivity|]. exists [], rest. auto.
        -- reflexivity.
        -- intros opened. cbn. rewrite app_nil_r. apply remove_client_last.
      * match goal with |- context [Recon.check_modbus ip rest ?s1] =>
          destruct (IH s1) as (events & Hlog & Hres & Hreq & Hopen);
          destruct (Recon.check_modbus ip rest s1) as [r s2] end.
        cbn [fst snd log] in *.
        exists (EvConnect c true ::
                EvRequest c (ReadCoils 0 1) (Exception msg) :: events).
        split; [rewrite Hlog, <- !app_assoc; reflexivity|].
        split; [|split].
        -- destruct r as [[host port']|].
           ++ destruct Hres as (Hh & before & after & Hp & Hc & Ha).
              split; [exact Hh|]. exists (port :: before), after.
              cbn. rewrite Hp. unfold connect_attempts in Hc.
              rewrite Hc. auto.
           ++ destruct Hres as (Hc & Ha). cbn.
              unfold connect_attempts in Hc. rewrite Hc. auto.
        -- cbn. unfold requests_of in Hreq. now rewrite Hreq.
        -- intros opened. cbn.
           etransitivity; [apply Hopen|].
           now rewrite <- app_assoc.
    + match goal with |- context [Recon.check_modbus ip rest ?s1] =>
        destruct (IH s1) as (events & Hlog & Hres & Hreq & Hopen);
        destruct (Recon.check_modbus ip rest s1) as [r s2] end.
      cbn [fst snd log] in *.
      exists (EvConnect c false :: events).
      split; [rewrite Hlog, <- !app_assoc; reflexivity|].
      split; [|split].
      * destruct r as [[host port']|].
        -- destruct Hres as (Hh & before & after & Hp & Hc & Ha).
           split; [exact Hh|]. exists (port :: before), after.
           cbn. rewrite Hp. unfold connect_attempts in Hc.
           rewrite Hc. auto.
        -- destruct Hres as (Hc & Ha). cbn.
           unfold connect_attempts in Hc. rewrite Hc. auto.
      * cbn. exact Hreq.
      * intros opened. cbn. apply Hopen.
Qed.

End ReconLiveness.

(** [check_modbus] of modbusrecon_toolkit.py tries the ports in list order
    and stops at the first one whose connection succeeds and whose
    [read_coils(0, 1)] is answered by a normal response: it returns that
    port with the host's address and has tried no later port; it returns
    nothing only after trying every port without such an answer.  Every
    port that connects receives exactly one request, the read of coil 0. *)
Theorem recon_check_modbus_first_live_port :
  forall (World : Type) (net : Network World) ip ports (s : State World),
  exists events,
    log (snd (Recon.check_modbus ip ports s)) = (log s ++ events)%list /\
    match fst (Recon.check_modbus ip ports s) with
    | Some (host, port) =>
        host = IPAddress.str_of_address ip /\
        exists before after,
          ports = (before ++ port :: after)%list /\
          connect_attempts events =
            map (mkClient (IPAddress.str_of_address ip))
                (before ++ [port])%list /\
          answered_requests events =
            [(mkClient (IPAddress.str_of_address ip) port, ReadCoils 0 1)]
    | None =>
        connect_attempts events =
          map (mkClient (IPAddress.str_of_address ip)) ports /\
        answered_requests events = []
    end /\
    requests_of events =
      map (fun c => (c, ReadCoils 0 1)) (connected_clients events).
Proof.
  intros World net ip ports s.
  destruct (recon_check_modbus_run ip ports s)
    as (events & Hlog & Hres & Hreq & _).
  exists events. auto.
Qed.

(** After [check_modbus] of modbusrecon_toolkit.py, the clients still open
    are exactly those whose read raised, one per raising read: every other
    client it connected has been closed. *)
Theorem recon_check_modbus_open_sessions :
  forall (World : Type) (net : Network World) ip ports (s : State World),
  exists events,
    log (snd (Recon.check_modbus ip ports s)) = (log s ++ events)%list /\
    Permutation (open_clients events []) (raised_requests events).
Proof.
  intros World net ip ports s.
  destruct (recon_check_modbus_run ip ports s)
    as (events & Hlog & _ & _ & Hopen).
  exists events. split; [exact Hlog|]. apply (Hopen []).
Qed.

(** ** The shape of a device-identification record *)

Lemma to_int_not_nil z :
  Z.to_int z <> Decimal.Pos Decimal.Nil /\
  Z.to_int z <> Decimal.Neg Decimal.Nil.
Proof.
  destruct z as [|p|p]; cbn; split; try discriminate;
    intros [= Hp]; exact (Unsigned.to_uint_nonnil p Hp).
Qed.

(** [str] of an integer determines the integer. *)
Lemma str_of_int_inj a b : Py.str_of_int a = Py.str_of_int b -> a = b.
Proof.
  unfold Py.str_of_int. intros Heq.
  apply (f_equal NilZero.int_of_string) in Heq.
  destruct (to_int_not_nil a) as [Ha1 Ha2].
  destruct (to_int_not_nil b) as [Hb1 Hb2].
  rewrite !NilZero.isi in Heq by assumption.
  injection Heq as Heq. now apply DecimalZ.to_int_inj.
Qed.

Lemma string_app_inv_head (prefix a b : string) :
  (prefix ++ a = prefix ++ b)%string -> a = b.
Proof.
  induction prefix as [|c prefix IH]; cbn; [auto|].
  intros [= Heq]. auto.
Qed.

Lemma device_key_inj a b : device_key a = device_key b -> a = b.
Proof.
  unfold device_key. intros Heq.
  apply string_app_inv_head in Heq. now apply str_of_int_inj.
Qed.

Lemma setitem_fresh {V} (k : string) (v : V) (d : Py.dict V) :
  ~ In k (Py.keys d) -> Py.setitem k v d = (d ++ [(k, v)])%list.
Proof.
  induction d as [|[k0 v0] d IH]; cbn; [reflexivity|].
  intros Hnot. destruct (String.eqb_spec k k0) as [->|Hne].
  - exfalso. apply Hnot. now left.
  - f_equal. apply IH. intros Hin. apply Hnot. now right.
Qed.

(** With pairwise distinct object ids, none of whose keys is in the record
    yet, the device fields are appended in the order of the response. *)
Lemma add_device_fields_appends information info :
  NoDup (map fst information) ->
  (forall obj_id, In obj_id (map fst information) ->
                  ~ In (device_key obj_id) (Py.keys info)) ->
  add_device_fields information info =
  (info ++ map (fun '(obj_id, value) => (device_key obj_id, FStr value))
               information)%list.
Proof.
  unfold add_device_fields. revert info.
  induction information as [|[obj_id value] rest IH]; intros info Hnd Hfresh.
  - cbn. now rewrite app_nil_r.
  - cbn [fold_left map]. cbn [map fst] in Hnd, Hfresh.
    apply NoDup_cons_iff in Hnd as [Hnotin Hnd].
    fold (device_key obj_id).
    rewrite (setitem_fresh (device_key obj_id)) by (apply Hfresh; now left).
    rewrite IH.
    + now rewrite <- app_assoc.
    + exact Hnd.
    + intros id' Hin'. unfold Py.keys. rewrite map_app, in_app_iff.
      intros [Hold|[Hnew|[]]].
      * apply (Hfresh id'); [now right|exact Hold].
      * cbn in Hnew. apply device_key_inj in Hnew. subst id'. contradiction.
Qed.

Lemma device_key_not_fixed obj_id (fixed : list string) :
  forallb (fun k => negb (String.prefix "device_" k)) fixed = true ->
  ~ In (device_key obj_id) fixed.
Proof.
  intros Hall Hin.
  rewrite forallb_forall in Hall. specialize (Hall _ Hin).
  unfold device_key in Hall. cbn in Hall.
  destruct (Py.str_of_int obj_id); discriminate.
Qed.

(** When the device-identification response is normal, with pairwise
    distinct object ids as in any Python dict, the record of each script is
    exactly: the fixed fields (Host, Type, Status; with Port in
    modbusrecon_toolkit.py), then one field [device_<id>] per object in the
    order of the response, each with its value, then in
    modbusrecon_toolkit.py the Vendor.  No object id can overwrite a fixed
    field. *)
Theorem device_info_record_layout :
  forall (World : Type) (net : Network World) client ip port
         (s : State World) information,
    fst (net_read_device_information client (world s)) =
      Returned (Normal information) ->
    NoDup (map fst information) ->
    fst (Toolkit.fingerprint_device client ip s) =
      Py.Returns
        ([("Host", FStr ip); ("Type", FStr "device_info");
          ("Status", FStr "OK")] ++
         map (fun '(obj_id, value) => (device_key obj_id, FStr value))
             information)%list /\
    fst (Recon.fingerprint_device client ip port s) =
      Some
        ([("Host", FStr ip); ("Port", FInt port);
          ("Type", FStr "device_info"); ("Status", FStr "OK")] ++
         map (fun '(obj_id, value) => (device_key obj_id, FStr value))
             information ++
         [("Vendor", FStr (Recon.identify_vendor information))])%list.
Proof.
  intros World net client ip port s information Hresp Hnd.
  pose proof (toolkit_fingerprint_cases client ip s) as HT.
  pose proof (recon_fingerprint_cases client ip port s) as HR.
  rewrite Hresp in HT, HR. rewrite HT, HR. split.
  - f_equal. apply add_device_fields_appends; [exact Hnd|].
    intros obj_id _. now apply device_key_not_fixed.
  - f_equal. rewrite add_device_fields_appends; [|exact Hnd|].
    + rewrite setitem_fresh; [now rewrite <- app_assoc|].
      unfold Py.keys. rewrite map_app, in_app_iff.
      intros [Hfixed|Hdev].
      * cbn in Hfixed. decompose [or] Hfixed; discriminate || contradiction.
      * rewrite map_map in Hdev. apply in_map_iff in Hdev as ([id v] & Hk & _).
        cbn in Hk. discriminate.
    + intros obj_id _. now apply device_key_not_fixed.
Qed.

(** The layout at a response of two objects. *)
Lemma device_info_record_layout_witness :
  fst (Recon.fingerprint_device (mkClient "10.0.0.5" 502) "10.0.0.5" 502
         (mkState ([Scripted.Information [(0, "Siemens AG"); (1, "S7-1200")]]
                   : Scripted.World) [])) =
  Some [("Host", FStr "10.0.0.5"); ("Port", FInt 502);
        ("Type", FStr "device_info"); ("Status", FStr "OK");
        ("device_0", FStr "Siemens AG"); ("device_1", FStr "S7-1200");
        ("Vendor", FStr "Siemens S7")].
Proof.
  assert (NoDup (map fst [(0, "Siemens AG"); (1, "S7-1200")])) as Hnd.
  { cbn. repeat constructor; cbn; intuition discriminate. }
  exact (proj2 (device_info_record_layout Scripted.World Scripted.network
                  (mkClient "10.0.0.5" 502) "10.0.0.5" 502
                  (mkState [Scripted.Information
                              [(0, "Siemens AG"); (1, "S7-1200")]] [])
                  [(0, "Siemens AG"); (1, "S7-1200")] eq_refl Hnd)).
Defined.

(** ** The CSV report *)

Lemma csv_row_cases fieldnames (row : FingerprintRecord) :
  (incl (Py.keys row) fieldnames /\
   Recon.csv_row fieldnames row =
   Py.Returns (map (fun k => match Py.getitem k row with
                             | Some v => v
                             | None => FStr EmptyString
                             end) fieldnames)) \/
  (Recon.csv_row fieldnames row = Py.Throws Py.ValueError /\
   exists k, In k (Py.keys row) /\ ~ In k fieldnames).
Proof.
  unfold Recon.csv_row.
  destruct (forallb _ (Py.keys row)) eqn:Hall.
  - left. split; [|reflexivity].
    rewrite forallb_forall in Hall. intros k Hk.
    specialize (Hall k Hk). apply existsb_exists in Hall as (k' & Hin & Heq).
    apply String.eqb_eq in Heq. now subst k'.
  - right. split; [reflexivity|].
    assert (~ forall k, In k (Py.keys row) ->
                        existsb (String.eqb k) fieldnames = true) as Hnot.
    { intros Hf. apply forallb_forall in Hf. congruence. }
    induction (Py.keys row) as [|k ks IH]; cbn in Hall; [discriminate|].
    destruct (existsb (String.eqb k) fieldnames) eqn:Hk; cbn in Hall.
    + destruct IH as (k' & Hin & Hout); [exact Hall| |].
      * intros Hf. apply forallb_forall in Hf. congruence.
      * exists k'. split; [now right|exact Hout].
    + exists k. split; [now left|].
      intros Hin.
      assert (existsb (String.eqb k) fieldnames = true) as Habs;
        [|congruence].
      apply existsb_exists. exists k. split; [exact Hin|].
      apply String.eqb_refl.
Qed.

Lemma csv_rows_cases fieldnames (data : list FingerprintRecord) :
  ((forall row, In row data -> incl (Py.keys row) fieldnames) /\
   Recon.csv_rows fieldnames data =
   Py.Returns
     (map (fun row =>
             map (fun k => match Py.getitem k row with
                           | Some v => v
                           | None => FStr EmptyString
                           end) fieldnames) data)) \/
  (Recon.csv_rows fieldnames data = Py.Throws Py.ValueError /\
   exists row k, In row data /\ In k (Py.keys row) /\ ~ In k fieldnames).
Proof.
  induction data as [|row data IH]; cbn [Recon.csv_rows].
  - left. split; [intros row []|reflexivity].
  - destruct (csv_row_cases fieldnames row) as [[Hincl ->]|[-> (k & Hk & Hout)]].
    + destruct IH as [[Hall ->]|[-> (row' & k & Hin & Hk & Hout)]].
      * left. split; [|reflexivity].
        intros r [<-|Hr]; auto.
      * right. split; [reflexivity|].
        exists row', k. repeat split; auto. now right.
    + right. split; [reflexivity|].
      exists row, k. repeat split; auto. now left.
Qed.

(** [save_csv] raises IndexError on an empty list.  On a non-empty list it
    writes the report exactly when every key of every record is a key of
    the first record, and raises ValueError otherwise.  The report is the
    header (the keys of the first record) followed by one row per record,
    each as wide as the header, holding under each key the record's value
    or the empty string when the record lacks the key. *)
Theorem save_csv_writes_or_raises :
  forall (first : FingerprintRecord) (rest : list FingerprintRecord),
    Recon.save_csv [] = Py.Throws Py.IndexError /\
    match Recon.save_csv (first :: rest) with
    | Py.Returns table =>
        (forall row, In row (first :: rest) ->
                     incl (Py.keys row) (Py.keys first)) /\
        table =
          map FStr (Py.keys first) ::
          map (fun row =>
                 map (fun k => match Py.getitem k row with
                               | Some v => v
                               | None => FStr EmptyString
                               end) (Py.keys first)) (first :: rest) /\
        List.length table = S (List.length (first :: rest)) /\
        Forall (fun cells => List.length cells = List.length (Py.keys first))
               table
    | Py.Throws e =>
        e = Py.ValueError /\
        exists row k,
          In row (first :: rest) /\ In k (Py.keys row) /\
          ~ In k (Py.keys first)
    end.
Proof.
  intros first rest. split; [reflexivity|].
  unfold Recon.save_csv.
  destruct (csv_rows_cases (Py.keys first) (first :: rest))
    as [[Hall ->]|[-> Hbad]].
  - split; [exact Hall|]. split; [reflexivity|]. split.
    + cbn [List.length]. now rewrite length_map.
    + constructor; [now rewrite length_map|].
      apply Forall_forall. intros cells Hin.
      apply in_map_iff in Hin as (row & <- & _). now rewrite length_map.
  - split; [reflexivity|exact Hbad].
Qed.

(** ** The HTML report *)

Lemma string_app_assoc (a b c : string) : ((a ++ b) ++ c = a ++ b ++ c)%string.
Proof. induction a as [|x a IH]; cbn; [reflexivity|now rewrite IH]. Qed.

Lemma string_app_nil_r (a : string) : (a ++ EmptyString = a)%string.
Proof. induction a as [|x a IH]; cbn; [reflexivity|now rewrite IH]. Qed.

Lemma occurs_here piece before after :
  occurs_in piece (before ++ piece ++ after).
Proof. now exists before, after. Qed.

Lemma occurs_app_l piece whole more :
  occurs_in piece whole -> occurs_in piece (whole ++ more).
Proof.
  intros (a & b & ->). exists a, (b ++ more)%string.
  now rewrite !string_app_assoc.
Qed.

Lemma occurs_app_r piece whole more :
  occurs_in piece whole -> occurs_in piece (more ++ whole).
Proof.
  intros (a & b & ->). exists (more ++ a)%string, b.
  now rewrite !string_app_assoc.
Qed.

Section HtmlReport.
Variable repr_of_patterns : list (ProbeResult Z) -> string.

Lemma add_cell_text html k v :
  Html.add_cell repr_of_patterns html (k, v) =
  (html ++ html_cell repr_of_patterns k v)%string.
Proof. reflexivity. Qed.

Lemma add_cells_extend row html :
  exists more,
    fold_left (Html.add_cell repr_of_patterns) row html =
    (html ++ more)%string.
Proof.
  revert html. induction row as [|[k v] row IH]; intros html; cbn [fold_left].
  - exists EmptyString. now rewrite string_app_nil_r.
  - rewrite add_cell_text.
    destruct (IH (html ++ html_cell repr_of_patterns k v)%string)
      as (more & ->).
    eexists. apply string_app_assoc.
Qed.

Lemma add_cells_occurs row html k v :
  In (k, v) row ->
  occurs_in (html_cell repr_of_patterns k v)
            (fold_left (Html.add_cell repr_of_patterns) row html).
Proof.
  revert html. induction row as [|[k0 v0] row IH]; intros html Hin;
    [contradiction|].
  cbn [fold_left]. destruct Hin as [[= -> ->]|Hin].
  - rewrite add_cell_text.
    destruct (add_cells_extend row
                (html ++ html_cell repr_of_patterns k v)%string)
      as (more & ->).
    rewrite string_app_assoc. apply occurs_here.
  - apply IH. exact Hin.
Qed.

Lemma add_cells_keeps piece row html :
  occurs_in piece html ->
  occurs_in piece (fold_left (Html.add_cell repr_of_patterns) row html).
Proof.
  intros Hocc. destruct (add_cells_extend row html) as (more & ->).
  now apply occurs_app_l.
Qed.

Lemma add_rows_keeps piece row_end data html :
  occurs_in piece html ->
  occurs_in piece (Html.add_rows repr_of_patterns row_end html data).
Proof.
  unfold Html.add_rows. revert html.
  induction data as [|row data IH]; intros html Hocc; cbn [fold_left];
    [exact Hocc|].
  apply IH. apply occurs_app_l, add_cells_keeps. now apply occurs_app_l.
Qed.

Lemma add_rows_occurs row_end data html row k v :
  In row data -> In (k, v) row ->
  occurs_in (html_cell repr_of_patterns k v)
            (Html.add_rows repr_of_patterns row_end html data).
Proof.
  revert html.
  induction data as [|row0 data IH]; intros html Hrow Hcell;
    [contradiction|].
  destruct Hrow as [->|Hrow].
  - unfold Html.add_rows. cbn [fold_left].
    apply (add_rows_keeps _ row_end data). apply occurs_app_l.
    now apply add_cells_occurs.
  - unfold Html.add_rows. cbn [fold_left]. now apply IH.
Qed.

Lemma concat_empty_cons (x : string) (xs : list string) :
  String.concat EmptyString (x :: xs) =
  (x ++ String.concat EmptyString xs)%string.
Proof.
  destruct xs as [|y ys]; cbn [String.concat].
  - now rewrite string_app_nil_r.
  - reflexivity.
Qed.

Lemma header_cells_occurs (first : FingerprintRecord) k :
  In k (Py.keys first) ->
  occurs_in ("<th>" ++ k ++ "</th>") (Html.header_cells first).
Proof.
  unfold Html.header_cells.
  induction (Py.keys first) as [|k0 ks IH]; intros Hin; [contradiction|].
  cbn [map]. rewrite concat_empty_cons. destruct Hin as [->|Hin].
  - exists EmptyString. eexists. reflexivity.
  - apply occurs_app_r. now apply IH.
Qed.

End HtmlReport.

(** Walk down a concatenation to the header cells. *)
Ltac find_header_cell :=
  first [ apply occurs_app_l; now apply header_cells_occurs
        | apply occurs_app_r; find_header_cell ].

(** [save_html] of either script raises IndexError on an empty list and
    never raises on a non-empty one, whatever the keys of the records.  Its
    text shows every key of the first record as a header cell, and every
    field of every record as a table cell holding the value's text exactly
    as it is, without any escaping. *)
Theorem save_html_writes_every_field_verbatim :
  forall (repr_of_patterns : list (ProbeResult Z) -> string)
         (first : FingerprintRecord) (rest : list FingerprintRecord)
         (title : string),
    ToolkitReport.save_html repr_of_patterns [] title =
      Py.Throws Py.IndexError /\
    ReconReport.save_html repr_of_patterns [] title =
      Py.Throws Py.IndexError /\
    exists html html',
      ToolkitReport.save_html repr_of_patterns (first :: rest) title =
        Py.Returns html /\
      ReconReport.save_html repr_of_patterns (first :: rest) title =
        Py.Returns html' /\
      (forall k, In k (Py.keys first) ->
                 occurs_in ("<th>" ++ k ++ "</th>") html /\
                 occurs_in ("<th>" ++ k ++ "</th>") html') /\
      (forall row k v,
          In row (first :: rest) -> In (k, v) row ->
          occurs_in (html_cell repr_of_patterns k v) html /\
          occurs_in (html_cell repr_of_patterns k v) html').
Proof.
  intros repr_of_patterns first rest title.
  split; [reflexivity|]. split; [reflexivity|].
  eexists _, _. split; [reflexivity|]. split; [reflexivity|]. split.
  - intros k Hk. split; apply occurs_app_l, add_rows_keeps;
      find_header_cell.
  - intros row k v Hrow Hcell.
    split; apply occurs_app_l; now apply (add_rows_occurs _ _ _ _ row).
Qed.

(** The class of a table cell: a Status cell holding OK, Error or
    Exception: <text> gets the class OK, Error or Exception, whatever the
    text of the exception (colons included); a cell of any other key gets
    the empty class. *)
Theorem html_status_cell_class :
  forall (repr_of_patterns : list (ProbeResult Z) -> string)
         (t : StatusTag) (k : string) (v : FieldValue),
    html_cell repr_of_patterns "Status" (FStr (tag_text t)) =
      "<td class='" ++ tag_class t ++ "'>" ++ tag_text t ++ "</td>" /\
    (k <> "Status" ->
     html_cell repr_of_patterns k v =
       "<td class=''>" ++ Html.str repr_of_patterns v ++ "</td>").
Proof.
  intros repr_of_patterns t k v. split.
  - destruct t as [| |detail]; reflexivity.
  - intros Hk. unfold html_cell, Html.css_of.
    apply String.eqb_neq in Hk. now rewrite Hk.
Qed.

(** The class of a cell that is not the status. *)
Lemma html_status_cell_class_witness :
  html_cell (fun _ => EmptyString) "Host" (FStr "10.0.0.5") =
  "<td class=''>10.0.0.5</td>".
Proof.
  apply (html_status_cell_class (fun _ => EmptyString) OK "Host"
           (FStr "10.0.0.5")).
  discriminate.
Defined.

(** ** Laws of vendor identification *)

Lemma lower_char_idempotent c : Py.lower_char (Py.lower_char c) = Py.lower_char c.
Proof.
  destruct c as [[|] [|] [|] [|] [|] [|] [|] [|]]; vm_compute; reflexivity.
Qed.

Lemma lower_idempotent s : Py.lower (Py.lower s) = Py.lower s.
Proof.
  induction s as [|c s IH]; cbn; [reflexivity|].
  now rewrite lower_char_idempotent, IH.
Qed.

Lemma scan_signatures_label table v label :
  Recon.scan_signatures table v = Some label -> In label (map snd table).
Proof.
  induction table as [|[sig l] rest IH]; cbn; [discriminate|].
  destruct (Recon.signature_in sig v).
  - intros [= ->]. now left.
  - intros Hrest. right. now apply IH.
Qed.

Lemma table_label_known label :
  In label (map snd Recon.DEVICE_SIGNATURES) ->
  String.eqb label "Unknown Device" = false.
Proof.
  cbn. intros Hin.
  repeat (destruct Hin as [<-|Hin]; [reflexivity|]). contradiction.
Qed.

(** The answer of [identify_vendor] is one of the seven labels of the table
    or Unknown Device.  The first part of a mapping decides whenever it
    contains a signature, and only otherwise the rest is looked at.  The
    answer depends neither on the object ids nor on the letter case of the
    values. *)
Theorem identify_vendor_laws :
  forall (a b : list (Z * string)) (rename : Z -> Z),
    In (Recon.identify_vendor a)
       ("Unknown Device" :: map snd Recon.DEVICE_SIGNATURES) /\
    Recon.identify_vendor (a ++ b) =
      (if String.eqb (Recon.identify_vendor a) "Unknown Device"
       then Recon.identify_vendor b else Recon.identify_vendor a) /\
    Recon.identify_vendor (map (fun '(k, v) => (rename k, v)) a) =
      Recon.identify_vendor a /\
    Recon.identify_vendor (map (fun '(k, v) => (k, Py.lower v)) a) =
      Recon.identify_vendor a.
Proof.
  intros a b rename. split; [|split; [|split]].
  - induction a as [|[k v] a IH]; cbn [Recon.identify_vendor]; [now left|].
    destruct (Recon.scan_signatures Recon.DEVICE_SIGNATURES v) as [label|]
      eqn:Hs; [|exact IH].
    right. eapply scan_signatures_label. exact Hs.
  - induction a as [|[k v] a IH]; cbn [Recon.identify_vendor app].
    + reflexivity.
    + destruct (Recon.scan_signatures Recon.DEVICE_SIGNATURES v) as [label|]
        eqn:Hs; [|exact IH].
      apply scan_signatures_label in Hs.
      now rewrite (table_label_known label Hs).
  - induction a as [|[k v] a IH]; cbn [Recon.identify_vendor map];
      [reflexivity|].
    now rewrite IH.
  - induction a as [|[k v] a IH]; cbn [Recon.identify_vendor map];
      [reflexivity|].
    rewrite IH. rewrite !scan_signatures_first.
    unfold Recon.signature_in. now rewrite lower_idempotent.
Qed.

(** ** Labels and requests of a scan *)

Section ScanLabels.
Context {World : Type} `{Network World}.


End ScanLabels.


(** ** The size of a banner *)



